(** * Tortoise beacon: a shallow embedding of go-spacemesh/tortoisebeacon

    The development follows the Go package file by file:
    - identifiers, errors, hashes (common/types, common/util);
    - [Votes]: the vote codec and the vote tally (votes_encoder.go,
      votes_calc.go);
    - [TB]: tortoise_beacon.go, beacon_calc.go and db.go;
    - [TBReady]: tortoisebeacon.go, the variant of the engine that keeps a
      readiness channel per epoch. *)

From Stdlib Require Import ZArith Lia Ascii String List.
From stdpp Require Import gmap strings list fin_maps sorting.

Open Scope Z_scope.
Set Warnings "-clear-no-such-hyp".

(* ===================================================================== *)
(** ** Identifiers, errors and results *)
(* ===================================================================== *)

(** types.EpochID, types.RoundID and types.LayerID are unsigned 64-bit
    integers (the code converts them with [uint64(epoch)]); arithmetic on
    them wraps around. Node identifiers and proposals are strings, byte
    slices are lists of numbers below 256. *)
Abbreviation EpochID := Z (only parsing).
Abbreviation RoundID := Z (only parsing).
Definition uint64_modulus : Z := 2 ^ 64.
Definition wrap64 (x : Z) : Z := x mod uint64_modulus.
Definition epoch_sub (a b : EpochID) : EpochID := wrap64 (a - b).
Definition epoch_succ (a : EpochID) : EpochID := wrap64 (a + 1).

Abbreviation nodeID := string (only parsing).
Abbreviation proposal := string (only parsing).
Abbreviation proposalList := (list string) (only parsing).
Abbreviation bytes := (list Z) (only parsing).

(** Go errors: the sentinel values of the package, errors coming from the
    collaborators, and [fmt.Errorf("ctx: %w", err)] wrapping. *)
Inductive error : Type :=
  | ErrUnknownMessageType
  | ErrBeaconNotCalculated
  | ErrEmptyProposalList
  | ErrTimeout
  | ErrExternal (msg : string)
  | ErrWrap (ctx : string) (cause : error).

Inductive result (A : Type) : Type :=
  | Ok (a : A)
  | Err (e : error).
Arguments Ok {A} a.
Arguments Err {A} e.

(** [errors.Is(err, target)]: the chain of wrapped causes reaches [target]. *)
Fixpoint errors_Is (target e : error) : Prop :=
  e = target \/
  match e with
  | ErrWrap _ cause => errors_Is target cause
  | _ => False
  end.

(* ===================================================================== *)
(** ** SHA-256 on byte lists *)
(* ===================================================================== *)

Module SHA256.

Definition w32 (x : Z) : Z := x mod 2 ^ 32.
Definition add32 (x y : Z) : Z := w32 (x + y).
Definition rotr (n x : Z) : Z :=
  Z.lor (Z.shiftr x n) (w32 (Z.shiftl x (32 - n))).
Definition not32 (x : Z) : Z := Z.lxor x 0xffffffff.

Definition Ch (x y z : Z) : Z := Z.lxor (Z.land x y) (Z.land (not32 x) z).
Definition Maj (x y z : Z) : Z :=
  Z.lxor (Z.lxor (Z.land x y) (Z.land x z)) (Z.land y z).
Definition bigS0 (x : Z) : Z := Z.lxor (Z.lxor (rotr 2 x) (rotr 13 x)) (rotr 22 x).
Definition bigS1 (x : Z) : Z := Z.lxor (Z.lxor (rotr 6 x) (rotr 11 x)) (rotr 25 x).
Definition smallS0 (x : Z) : Z := Z.lxor (Z.lxor (rotr 7 x) (rotr 18 x)) (Z.shiftr x 3).
Definition smallS1 (x : Z) : Z := Z.lxor (Z.lxor (rotr 17 x) (rotr 19 x)) (Z.shiftr x 10).

(** The round constants are the first 32 bits of the fractional parts of
    the cube roots of the first 64 primes, the initial hash value those of
    the square roots of the first 8 primes. *)
Definition is_prime (n : Z) : bool :=
  forallb (fun d => negb (n mod d =? 0)) (seqZ 2 (n - 2)).

Definition primes : list Z := filter (fun n => is_prime n = true) (seqZ 2 310).

Fixpoint cube_root_bits (bit : nat) (n r : Z) : Z :=
  match bit with
  | O => r
  | S bit' =>
      let r' := r + 2 ^ Z.of_nat bit' in
      cube_root_bits bit' n (if r' * r' * r' <=? n then r' else r)
  end.

Definition cube_root (n : Z) : Z := cube_root_bits 36 n 0.

Definition K : list Z :=
  Eval vm_compute in map (fun p => w32 (cube_root (p * 2 ^ 96))) primes.

Definition H0 : list Z :=
  Eval vm_compute in map (fun p => w32 (Z.sqrt (p * 2 ^ 64))) (take 8 primes).

(** Big-endian packing of bytes into words and back. *)
Definition be_word (bs : list Z) : Z :=
  fold_left (fun acc b => acc * 256 + b) bs 0.

Fixpoint be_bytes (n : nat) (x : Z) : list Z :=
  match n with
  | O => []
  | S n' => be_bytes n' (x / 256) ++ [x mod 256]
  end.

Fixpoint words_of (n : nat) (bs : list Z) : list Z :=
  match n with
  | O => []
  | S n' => be_word (take 4 bs) :: words_of n' (drop 4 bs)
  end.

(** The message schedule, newest word first. *)
Fixpoint schedule (n : nat) (rev_w : list Z) : list Z :=
  match n with
  | O => rev_w
  | S n' =>
      let w := add32 (add32 (smallS1 (nth 1 rev_w 0)) (nth 6 rev_w 0))
                     (add32 (smallS0 (nth 14 rev_w 0)) (nth 15 rev_w 0)) in
      schedule n' (w :: rev_w)
  end.

Record regs := Regs { ra : Z; rb : Z; rc : Z; rd : Z; re : Z; rf : Z; rg : Z; rh : Z }.

Definition round (s : regs) (kw : Z * Z) : regs :=
  let t1 := add32 (add32 (add32 (rh s) (bigS1 (re s))) (Ch (re s) (rf s) (rg s)))
                  (add32 (fst kw) (snd kw)) in
  let t2 := add32 (bigS0 (ra s)) (Maj (ra s) (rb s) (rc s)) in
  Regs (add32 t1 t2) (ra s) (rb s) (rc s) (add32 (rd s) t1) (re s) (rf s) (rg s).

Definition regs_of (h : list Z) : regs :=
  Regs (nth 0 h 0) (nth 1 h 0) (nth 2 h 0) (nth 3 h 0)
       (nth 4 h 0) (nth 5 h 0) (nth 6 h 0) (nth 7 h 0).

Definition compress (h : list Z) (block : list Z) : list Z :=
  let w := rev (schedule 48 (rev (words_of 16 block))) in
  let s0 := regs_of h in
  let s := fold_left round (combine K w) s0 in
  [ add32 (ra s0) (ra s); add32 (rb s0) (rb s); add32 (rc s0) (rc s);
    add32 (rd s0) (rd s); add32 (re s0) (re s); add32 (rf s0) (rf s);
    add32 (rg s0) (rg s); add32 (rh s0) (rh s) ].

Definition pad (msg : list Z) : list Z :=
  let len := Z.of_nat (length msg) in
  msg ++ [0x80] ++ repeat 0 (Z.to_nat ((55 - len) mod 64)) ++ be_bytes 8 (8 * len).

Fixpoint blocks (n : nat) (h : list Z) (bs : list Z) : list Z :=
  match n with
  | O => h
  | S n' => blocks n' (compress h (take 64 bs)) (drop 64 bs)
  end.

Definition digest (msg : list Z) : list Z :=
  let p := pad msg in
  flat_map (be_bytes 4) (blocks (length p / 64)%nat H0 p).

End SHA256.


(* ===================================================================== *)
(** ** Hashes and hex text (common/types, common/util) *)
(* ===================================================================== *)

(** types.Hash32: 32 bytes. The helpers below belong to common/types and
    common/util, which are not among the sources; they follow the Go
    functions of the same names. *)
Abbreviation Hash32 := (list Z) (only parsing).
Definition HashLength : nat := 32.
Definition zeroHash32 : Hash32 := repeat 0 HashLength.

Definition fromHexChar (c : ascii) : option Z :=
  let n := Z.of_N (N_of_ascii c) in
  if (48 <=? n) && (n <=? 57) then Some (n - 48)
  else if (97 <=? n) && (n <=? 102) then Some (n - 87)
  else if (65 <=? n) && (n <=? 70) then Some (n - 55)
  else None.

(** encoding/hex.DecodeString as util.Hex2Bytes uses it: the error is
    dropped and the bytes decoded before it are kept. *)
Fixpoint Hex2Bytes_chars (src : list ascii) : bytes :=
  match src with
  | p :: q :: rest =>
      match fromHexChar p, fromHexChar q with
      | Some a, Some b => (a * 16 + b) :: Hex2Bytes_chars rest
      | _, _ => []
      end
  | _ => []
  end.

(** util.FromHex: an optional 0x prefix, an odd number of digits is padded
    with a leading zero digit. *)
Definition FromHex (s : string) : bytes :=
  let cs := list_ascii_of_string s in
  let cs := match cs with
            | "0"%char :: "x"%char :: rest => rest
            | "0"%char :: "X"%char :: rest => rest
            | _ => cs
            end in
  let cs := if Nat.odd (length cs) then "0"%char :: cs else cs in
  Hex2Bytes_chars cs.

(** types.BytesToHash: longer inputs are cropped from the left, shorter ones
    are left-padded with zero bytes. *)
Definition BytesToHash (b : bytes) : Hash32 :=
  let b := drop (length b - HashLength) b in
  repeat 0 (HashLength - length b) ++ b.

(** Modelled from the spec: types.HexToHash32 (common/types) is not among
    the sources. Section 3: a Hash32 is a 32-byte value and proposals are
    hex-encoded; the text is read as a hexadecimal number and stored in the
    low-order bytes, so that [HexToHash32("0x00")], the genesis beacon of
    tortoise_beacon.go, is the all-zero beacon of section 3. *)
Definition HexToHash32 (s : string) : Hash32 := BytesToHash (FromHex s).

(** Modelled from the spec: proposalList.Hash (proposal_list.go) is not among
    the sources. Section 4.H: the beacon is the 32-byte digest of the
    concatenation of the list entries in their order. Each entry is taken as
    the Hash32 its hex text denotes and the digest is SHA-256; this is the
    reading under which the value of scenario S1, which is also the value
    expected by TestTortoiseBeacon_calcBeacon, comes out. *)
Definition proposalList_Hash (hl : proposalList) : Hash32 :=
  SHA256.digest (flat_map HexToHash32 hl).

(** [sort.Slice(allHashes, func(i, j) { strings.Compare(a[i], a[j]) == -1 })]:
    ascending byte-wise lexicographic order. *)
Definition sort_Slice (l : proposalList) : proposalList := merge_sort String.le l.

Definition lex_lt (a b : string) : Prop := String.ltb a b = true.

(** Sets of proposals and pairs of them (type aliases of tortoise_beacon.go). *)
Abbreviation hashSet := (gset string) (only parsing).

Record votesSetPair := VotesSetPair {
  ValidVotes : hashSet;
  InvalidVotes : hashSet;
}.

Abbreviation epochRoundPair := (Z * Z)%type (only parsing).
Definition firstRound : RoundID := 1.
Definition cleanupEpochs : Z := 1000.

Definition genesisBeacon : Hash32 := HexToHash32 "0x00".


(* ===================================================================== *)
(** ** Vote codec and vote tally (votes_encoder.go, votes_calc.go) *)
(* ===================================================================== *)

Module Votes.

(** The first-round lists a bit vector is read against (type [proposals] of
    votes_encoder_test.go). *)
Record proposals := Proposals {
  ValidProposals : list proposal;
  PotentiallyValidProposals : list proposal;
}.

(** Section 4.D: L = valids before potentially-valids. *)
Definition firstRoundList (firstRound : proposals) : list proposal :=
  ValidProposals firstRound ++ PotentiallyValidProposals firstRound.

(** A bit vector is a slice of uint64 words, bit [i] of the vector being bit
    [i mod 64] of word [i / 64]. *)
Definition wordSize : nat := 64.

Definition word_of_bits (bs : list bool) : Z :=
  foldr (fun b acc => Z.b2z b + 2 * acc) 0 bs.

Definition pack_bits (bs : list bool) : list Z :=
  map (fun j => word_of_bits (take wordSize (drop (j * wordSize) bs)))
      (seq 0 ((length bs + 63) / wordSize)).

Definition bit_at (bitVector : list Z) (i : nat) : bool :=
  Z.testbit (nth (i / wordSize) bitVector 0) (Z.of_nat (i mod wordSize)).

(** Modelled from the spec: encodeVotes (votes_encoder.go) is not among the
    sources, only its tests are. Section 4.D: bit [i] of the little-endian
    bit vector is 1 iff [L[i]] is in the current ValidVotes; the vector has
    [|L|] bits rounded up to a word, trailing bits zero. *)
Definition encodeVotes (currentRound : votesSetPair) (firstRound : proposals) : list Z :=
  pack_bits (map (fun p => bool_decide (p ∈ ValidVotes currentRound))
                 (firstRoundList firstRound)).

Definition decodeStep (bitVector : list Z) (acc : votesSetPair) (ip : nat * proposal) : votesSetPair :=
  if bit_at bitVector ip.1
  then VotesSetPair ({[ ip.2 ]} ∪ ValidVotes acc) (InvalidVotes acc)
  else VotesSetPair (ValidVotes acc) ({[ ip.2 ]} ∪ InvalidVotes acc).

(** [for i, p := range L]: the loop of decodeVotes from index [i] on. *)
Fixpoint decodeFrom (bitVector : list Z) (i : nat) (l : list proposal)
    (acc : votesSetPair) : votesSetPair :=
  match l with
  | [] => acc
  | p :: l' => decodeFrom bitVector (S i) l' (decodeStep bitVector acc (i, p))
  end.

(** Modelled from the spec: decodeVotes (votes_encoder.go) is not among the
    sources. Section 4.D: decode is the inverse reading of the bit vector
    against [L]: [L[i]] is a valid vote when bit [i] is 1 and an invalid vote
    when it is 0. *)
Definition decodeVotes (bitVector : list Z) (firstRound : proposals) : votesSetPair :=
  decodeFrom bitVector 0 (firstRoundList firstRound) (VotesSetPair ∅ ∅).

(** A Go map read: the zero value when the key is absent. *)
Definition margin_at (votesMargin : gmap proposal Z) (p : proposal) : Z :=
  default 0 (votesMargin !! p).

(** [votesMargin[p] += w]. *)
Definition addMargin (w : Z) (votesMargin : gmap proposal Z) (p : proposal) : gmap proposal Z :=
  <[ p := margin_at votesMargin p + w ]> votesMargin.

Definition tallyVoter (w : Z) (votesList : votesSetPair) (votesMargin : gmap proposal Z)
  : gmap proposal Z :=
  let m := fold_left (addMargin w) (elements (ValidVotes votesList)) votesMargin in
  fold_left (addMargin (- w)) (elements (InvalidVotes votesList)) m.

(** Modelled from the spec: firstRoundVotes (votes_calc.go) is not among the
    sources, only its tests are. Section 4.C, margin accumulation: for each
    received first-round vote from voter [v] with weight [w(v)], every
    proposal of [v.ValidVotes] gains [w(v)] and every proposal of
    [v.InvalidVotes] loses [w(v)]. *)
Definition firstRoundVotes (weight : nodeID -> Z)
    (incomingVotes : gmap epochRoundPair (gmap nodeID votesSetPair))
    (epoch : EpochID) : gmap proposal Z :=
  let firstRoundInVotes := default ∅ (incomingVotes !! (epoch, firstRound)) in
  fold_left (fun m pkv => tallyVoter (weight pkv.1) pkv.2 m)
            (map_to_list firstRoundInVotes) ∅.



End Votes.

(* ===================================================================== *)
(** ** External collaborators *)
(* ===================================================================== *)

(** The tortoiseBeaconDB interface of tortoise_beacon.go. [Get] returns
    [(Hash32, bool)], [Set] returns an error or nil. *)
Class tortoiseBeaconDB (D : Type) := {
  GetTortoiseBeacon : D -> EpochID -> option Hash32;
  SetTortoiseBeacon : D -> EpochID -> Hash32 -> D * option error;
}.

(** database.Database, the key-value store behind db.go. *)
Class Database (S : Type) := {
  store_Get : S -> bytes -> result bytes;
  store_Put : S -> bytes -> bytes -> S * option error;
}.

(** Modelled from the spec: EpochID.ToBytes (common/types) is not among the
    sources. Section 6, persisted state layout: the key is the big-endian
    bytes of the epoch. *)
Definition EpochID_ToBytes (e : EpochID) : bytes := SHA256.be_bytes 8 e.

(** db.go *)
Module DBFile.

Record DB (S : Type) := NewDB { store : S }.
Arguments NewDB {S} store.
Arguments store {S} d.

Definition DB_GetTortoiseBeacon {S} `{Database S} (db : DB S) (epochID : EpochID)
  : option Hash32 :=
  match store_Get (store db) (EpochID_ToBytes epochID) with
  | Err _ => None
  | Ok id => Some (BytesToHash id)
  end.

Definition DB_SetTortoiseBeacon {S} `{Database S} (db : DB S) (epochID : EpochID)
    (beacon : Hash32) : DB S * option error :=
  match store_Put (store db) (EpochID_ToBytes epochID) beacon with
  | (st, Some err) => (NewDB st, Some (ErrWrap "failed to add tortoise beacon" err))
  | (st, None) => (NewDB st, None)
  end.

#[global] Instance DB_tortoiseBeaconDB {S} `{Database S} : tortoiseBeaconDB (DB S) := {
  GetTortoiseBeacon := DB_GetTortoiseBeacon;
  SetTortoiseBeacon := DB_SetTortoiseBeacon;
}.

(** An in-memory store whose operations never fail. *)
#[global] Instance memStore : Database (gmap bytes bytes) := {
  store_Get st k := match st !! k with
                    | Some v => Ok v
                    | None => Err (ErrExternal "not found")
                    end;
  store_Put st k v := (<[ k := v ]> st, None);
}.

End DBFile.

(** What the engine hands to [types.InterfaceToBytes]. *)
Inductive message : Type :=
  | ProposalPreimage (Prefix : string) (Epoch : Z)
  | ProposalMessage (MinerID : string) (VRFSignature : bytes)
  | BeaconSyncMessageBody (MinerID : string) (Epoch : EpochID) (Beacon : Hash32)
  | BeaconSyncMessage (MinerID : string) (Epoch : EpochID) (Beacon : Hash32)
                      (Signature : bytes).

(** Collaborators of the engine that are outside the package: the ATX
    database, the serializer, the signers, the network and the threshold
    arithmetic of math/big. *)
Record collaborators := Collaborators {
  IsGenesis : EpochID -> bool;
  GetEpochWeight : EpochID -> result Z;
  InterfaceToBytes : message -> result bytes;
  vrfSigner_Sign : bytes -> bytes;
  edSigner_Sign : bytes -> bytes;
  Broadcast : string -> bytes -> option error;
  Bytes2Hex : bytes -> string;
  atxThreshold : Z -> Z;
  mapOrder : hashSet -> list proposal;
  LayerID_GetEpoch : Z -> EpochID;
}.

(** Go ranges over a map in an unspecified order: [mapOrder] is any
    enumeration of the keys. *)
Definition mapOrder_ok (c : collaborators) : Prop :=
  forall s : hashSet, mapOrder c s ≡ₚ elements s.

Definition proposalPrefix : string := "TBP".
Definition TBProposalProtocol : string := "TBProposal".
Definition TBBeaconSyncProtocol : string := "TBBeaconSync".

(* ===================================================================== *)
(** ** tortoise_beacon.go and beacon_calc.go *)
(* ===================================================================== *)

Module TB.

(** The fields of [TortoiseBeacon] the embedded functions read or write.
    [Log] collects the error and warning lines, [slept] the seconds spent in
    [time.Sleep], [net] the payloads handed to the broadcaster. *)
Record TortoiseBeacon (D : Type) := mkTB {
  config_RoundsNumber : Z;
  minerID : string;
  tortoiseBeaconDB_ : option D;
  validProposals : gmap EpochID hashSet;
  ownVotes : gmap epochRoundPair votesSetPair;
  beacons : gmap EpochID Hash32;
  Log : list string;
  slept : Z;
  net : list (string * bytes);
}.
Arguments mkTB {D}.
Arguments config_RoundsNumber {D} t.
Arguments minerID {D} t.
Arguments tortoiseBeaconDB_ {D} t.
Arguments validProposals {D} t.
Arguments ownVotes {D} t.
Arguments beacons {D} t.
Arguments Log {D} t.
Arguments slept {D} t.
Arguments net {D} t.

Definition set_db {D : Type} (db : option D) (tb : TortoiseBeacon D) : TortoiseBeacon D :=
  mkTB (config_RoundsNumber tb) (minerID tb) db (validProposals tb) (ownVotes tb)
       (beacons tb) (Log tb) (slept tb) (net tb).
Definition set_validProposals {D : Type} (v : gmap EpochID hashSet) (tb : TortoiseBeacon D) :=
  mkTB (config_RoundsNumber tb) (minerID tb) (tortoiseBeaconDB_ tb) v (ownVotes tb)
       (beacons tb) (Log tb) (slept tb) (net tb).
Definition set_ownVotes {D : Type} (o : gmap epochRoundPair votesSetPair) (tb : TortoiseBeacon D) :=
  mkTB (config_RoundsNumber tb) (minerID tb) (tortoiseBeaconDB_ tb) (validProposals tb) o
       (beacons tb) (Log tb) (slept tb) (net tb).
Definition set_beacons {D : Type} (b : gmap EpochID Hash32) (tb : TortoiseBeacon D) :=
  mkTB (config_RoundsNumber tb) (minerID tb) (tortoiseBeaconDB_ tb) (validProposals tb)
       (ownVotes tb) b (Log tb) (slept tb) (net tb).
Definition log_line {D : Type} (line : string) (tb : TortoiseBeacon D) :=
  mkTB (config_RoundsNumber tb) (minerID tb) (tortoiseBeaconDB_ tb) (validProposals tb)
       (ownVotes tb) (beacons tb) (Log tb ++ [line]) (slept tb) (net tb).
Definition time_Sleep {D : Type} (seconds : Z) (tb : TortoiseBeacon D) :=
  mkTB (config_RoundsNumber tb) (minerID tb) (tortoiseBeaconDB_ tb) (validProposals tb)
       (ownVotes tb) (beacons tb) (Log tb) (slept tb + seconds) (net tb).
Definition net_push {D : Type} (channel : string) (data : bytes) (tb : TortoiseBeacon D) :=
  mkTB (config_RoundsNumber tb) (minerID tb) (tortoiseBeaconDB_ tb) (validProposals tb)
       (ownVotes tb) (beacons tb) (Log tb) (slept tb) (net tb ++ [(channel, data)]).

(** Functions of the package that are not among the sources (votes_calc.go)
    or that are made of goroutines and timers (runConsensusPhase); they act
    on the state and may fail. *)
Record phases (D : Type) := Phases {
  calcVotes : TortoiseBeacon D -> EpochID -> RoundID -> TortoiseBeacon D * result votesSetPair;
  runConsensusPhase : TortoiseBeacon D -> EpochID -> TortoiseBeacon D * result unit;
}.
Arguments calcVotes {D} p.
Arguments runConsensusPhase {D} p.

Section Engine.
Context {D : Type} `{!tortoiseBeaconDB D}.
Variable c : collaborators.
Variable ph : phases D.

Definition lastPossibleRound (tb : TortoiseBeacon D) : RoundID := config_RoundsNumber tb.

(** [for epoch := 0; epoch.IsGenesis(); epoch++ { tb.beacons[epoch] = genesisBeacon }].
    [None] when the loop has not ended within [fuel] iterations. The closed
    channel the function creates is not stored anywhere. *)
Fixpoint initGenesisLoop (fuel : nat) (epoch : EpochID) (b : gmap EpochID Hash32)
  : option (gmap EpochID Hash32) :=
  match fuel with
  | O => None
  | S fuel' =>
      if IsGenesis c epoch
      then initGenesisLoop fuel' (epoch_succ epoch) (<[ epoch := genesisBeacon ]> b)
      else Some b
  end.

Definition initGenesisBeacons (fuel : nat) (tb : TortoiseBeacon D) : option (TortoiseBeacon D) :=
  match initGenesisLoop fuel 0 (beacons tb) with
  | Some b => Some (set_beacons b tb)
  | None => None
  end.

(** [if tb.tortoiseBeaconDB != nil { val, ok := tb.tortoiseBeaconDB.GetTortoiseBeacon(epochID) }] *)
Definition dbGet (tb : TortoiseBeacon D) (epochID : EpochID) : option Hash32 :=
  match tortoiseBeaconDB_ tb with
  | Some db => GetTortoiseBeacon db epochID
  | None => None
  end.

(** The retry loop of GetBeacon. The read lock on [beacons] is held for the
    whole loop, so no writer changes the map between two attempts. *)
Fixpoint getBeaconLoop (attempts : nat) (epochID : EpochID) (tb : TortoiseBeacon D)
  : TortoiseBeacon D * Hash32 :=
  match attempts with
  | O => (tb, zeroHash32)
  | S n =>
      match beacons tb !! epoch_sub epochID 1 with
      | Some beacon => (tb, beacon)
      | None =>
          getBeaconLoop n epochID
            (time_Sleep 1 (log_line "beacon not calculated yet, waiting" tb))
      end
  end.

Definition GetBeacon (tb : TortoiseBeacon D) (epochID : EpochID)
  : TortoiseBeacon D * result bytes :=
  match dbGet tb epochID with
  | Some val => (tb, Ok val)
  | None =>
      if IsGenesis c (epoch_sub epochID 1)
      then (tb, Ok genesisBeacon)
      else
        let '(tb1, beacon) := getBeaconLoop 50 epochID tb in
        let tb2 := log_line "beacon not calculated after all attempts" tb1 in
        match tortoiseBeaconDB_ tb2 with
        | Some db =>
            match SetTortoiseBeacon db epochID beacon with
            | (db', Some err) =>
                (set_db (Some db') tb2, Err (ErrWrap "update beacon in DB" err))
            | (db', None) => (set_db (Some db') tb2, Ok beacon)
            end
        | None => (tb2, Ok beacon)
        end
  end.

(** [tb.currentEpoch()-epoch > cleanupEpochs] on unsigned 64-bit integers. *)
Definition epochIsOutdated (currentEpoch epoch : EpochID) : bool :=
  cleanupEpochs <? epoch_sub currentEpoch epoch.

(** [for e := range tb.beacons { if tb.epochIsOutdated(e) { delete(tb.beacons, e) } }];
    [currentEpoch] is what [tb.currentEpoch()] returns when the task runs. *)
Definition cleanup (currentEpoch : EpochID) (tb : TortoiseBeacon D) : TortoiseBeacon D :=
  set_beacons (filter (fun kv => epochIsOutdated currentEpoch kv.1 = false) (beacons tb)) tb.

Definition sendToGossip (tb : TortoiseBeacon D) (channel : string) (data : message)
  : TortoiseBeacon D * result unit :=
  match InterfaceToBytes c data with
  | Err err => (tb, Err (ErrWrap "serializing" err))
  | Ok serialized =>
      match Broadcast c channel serialized with
      | Some err => (tb, Err err)
      | None => (net_push channel serialized tb, Ok tt)
      end
  end.

Definition calcProposal (epoch : EpochID) : result bytes :=
  InterfaceToBytes c (ProposalPreimage proposalPrefix epoch).

Definition calcProposalSignature (epoch : EpochID) : result bytes :=
  match calcProposal epoch with
  | Err err => Err (ErrWrap "calculate proposal" err)
  | Ok p => Ok (vrfSigner_Sign c p)
  end.

Definition calcEligibilityProof (m : message) : result bytes :=
  match InterfaceToBytes c m with
  | Err err => Err err
  | Ok encoded => Ok (edSigner_Sign c encoded)
  end.

(** [new(big.Int).SetBytes]: the bytes read as a big-endian natural number. *)
Definition big_SetBytes (b : bytes) : Z := SHA256.be_word b.

Definition proposalPassesEligibilityThreshold (proposal : bytes) (epochWeight : Z)
  : result bool :=
  let proposalInt := big_SetBytes proposal in
  let threshold := atxThreshold c epochWeight in
  Ok (proposalInt <? threshold).

(** The weight lookup is switched off in the code: [enabled := false]. *)
Definition voteWeight (pk : nodeID) (epochID : EpochID) : result Z := Ok 1.

Definition runProposalPhase (tb : TortoiseBeacon D) (epoch : EpochID)
  : TortoiseBeacon D * result unit :=
  match calcProposalSignature epoch with
  | Err err => (tb, Err (ErrWrap "calculate signed proposal" err))
  | Ok proposedSignature =>
      match GetEpochWeight c epoch with
      | Err err => (tb, Err (ErrWrap "get epoch weight" err))
      | Ok epochWeight =>
          match proposalPassesEligibilityThreshold proposedSignature epochWeight with
          | Err err => (tb, Err (ErrWrap "proposalPassesEligibilityThreshold" err))
          | Ok false => (tb, Ok tt)
          | Ok true =>
              let m := ProposalMessage (minerID tb) proposedSignature in
              match sendToGossip tb TBProposalProtocol m with
              | (tb1, Err err) => (tb1, Err (ErrWrap "broadcast proposal message" err))
              | (tb1, Ok _) =>
                  let set := default ∅ (validProposals tb1 !! epoch) in
                  (set_validProposals
                     (<[ epoch := {[ Bytes2Hex c proposedSignature ]} ∪ set ]>
                        (validProposals tb1)) tb1,
                   Ok tt)
              end
          end
      end
  end.

Definition syncBeacon (tb : TortoiseBeacon D) (epoch : EpochID) (beacon : Hash32)
  : TortoiseBeacon D * result unit :=
  match calcEligibilityProof (BeaconSyncMessageBody (minerID tb) epoch beacon) with
  | Err err => (tb, Err (ErrWrap "calcEligibilityProof" err))
  | Ok sig =>
      match sendToGossip tb TBBeaconSyncProtocol
                         (BeaconSyncMessage (minerID tb) epoch beacon sig) with
      | (tb1, Err err) => (tb1, Err (ErrWrap "sendToGossip" err))
      | (tb1, Ok _) => (tb1, Ok tt)
      end
  end.

Definition calcTortoiseBeaconHashList (tb : TortoiseBeacon D) (epoch : EpochID)
  : TortoiseBeacon D * result proposalList :=
  let lastRound : epochRoundPair := (epoch, lastPossibleRound tb) in
  let found :=
    match ownVotes tb !! lastRound with
    | Some votes => (tb, Ok votes)
    | None =>
        match calcVotes ph tb epoch (snd lastRound) with
        | (tb1, Err err) => (tb1, Err (ErrWrap "recalculate votes" err))
        | (tb1, Ok v) => (set_ownVotes (<[ lastRound := v ]> (ownVotes tb1)) tb1, Ok v)
        end
    end in
  match found with
  | (tb1, Err err) => (tb1, Err err)
  | (tb1, Ok votes) =>
      let allHashes := mapOrder c (ValidVotes votes) in
      (tb1, Ok (sort_Slice allHashes))
  end.

Definition calcBeacon (tb : TortoiseBeacon D) (epoch : EpochID)
  : TortoiseBeacon D * result unit :=
  match calcTortoiseBeaconHashList tb epoch with
  | (tb1, Err err) => (tb1, Err (ErrWrap "calc tortoise beacon hash list" err))
  | (tb1, Ok allHashes) =>
      let beacon := proposalList_Hash allHashes in
      let tb2 := set_beacons (<[ epoch := beacon ]> (beacons tb1)) tb1 in
      match syncBeacon tb2 epoch beacon with
      | (tb3, Err err) => (tb3, Err (ErrWrap "sync beacon" err))
      | (tb3, Ok _) => (tb3, Ok tt)
      end
  end.

Definition handleEpoch (tb : TortoiseBeacon D) (epoch : EpochID) : TortoiseBeacon D :=
  if IsGenesis c epoch then tb
  else
    match runProposalPhase tb epoch with
    | (tb1, Err err) => log_line "Failed to send proposal" tb1
    | (tb1, Ok _) =>
        let tb2 :=
          match runConsensusPhase ph tb1 epoch with
          | (tb2, Err err) => log_line "Failed to run consensus phase" tb2
          | (tb2, Ok _) => tb2
          end in
        match calcBeacon tb2 epoch with
        | (tb3, Err err) => log_line "Failed to calculate beacon" tb3
        | (tb3, Ok _) => tb3
        end
    end.

End Engine.

End TB.

(* ===================================================================== *)
(** ** tortoisebeacon.go: the engine with readiness channels *)
(* ===================================================================== *)

Module TBReady.

(** A [chan struct{}] that is only ever closed: open or closed. *)
Inductive chan : Type := chanOpen | chanClosed.

Record TortoiseBeacon (D : Type) := mkTB {
  config_RoundsNumber : Z;
  roundDuration : Z;
  tortoiseBeaconDB_ : option D;
  lastLayer : Z;
  beacons : gmap EpochID Hash32;
  beaconsReady : gmap EpochID chan;
  started : bool;
  closed : bool;
  Log : list string;
}.
Arguments mkTB {D}.
Arguments config_RoundsNumber {D} t.
Arguments roundDuration {D} t.
Arguments tortoiseBeaconDB_ {D} t.
Arguments lastLayer {D} t.
Arguments beacons {D} t.
Arguments beaconsReady {D} t.
Arguments started {D} t.
Arguments closed {D} t.
Arguments Log {D} t.

Definition set_db {D : Type} (db : option D) (tb : TortoiseBeacon D) : TortoiseBeacon D :=
  mkTB (config_RoundsNumber tb) (roundDuration tb) db (lastLayer tb) (beacons tb)
       (beaconsReady tb) (started tb) (closed tb) (Log tb).
Definition set_registry {D : Type} (b : gmap EpochID Hash32) (r : gmap EpochID chan)
    (tb : TortoiseBeacon D) : TortoiseBeacon D :=
  mkTB (config_RoundsNumber tb) (roundDuration tb) (tortoiseBeaconDB_ tb) (lastLayer tb) b
       r (started tb) (closed tb) (Log tb).
Definition log_line {D : Type} (line : string) (tb : TortoiseBeacon D) : TortoiseBeacon D :=
  mkTB (config_RoundsNumber tb) (roundDuration tb) (tortoiseBeaconDB_ tb) (lastLayer tb)
       (beacons tb) (beaconsReady tb) (started tb) (closed tb) (Log tb ++ [line]).

(** When the channels a [select] waits on become readable, counted from the
    moment the [select] starts; [None] is never. *)
Record future := Future {
  readyAt : option Z;
  closeAt : option Z;
}.

Section Engine.
Context {D : Type} `{!tortoiseBeaconDB D}.
Variable c : collaborators.

(** [genesisBeacon := types.Hash32{}]; every genesis epoch gets the zero
    beacon and the one closed channel, the epoch after them an open one. *)
Fixpoint initGenesisLoop (fuel : nat) (epoch : EpochID)
    (b : gmap EpochID Hash32) (r : gmap EpochID chan)
  : option (EpochID * gmap EpochID Hash32 * gmap EpochID chan) :=
  match fuel with
  | O => None
  | S fuel' =>
      if IsGenesis c epoch
      then initGenesisLoop fuel' (epoch_succ epoch)
             (<[ epoch := zeroHash32 ]> b) (<[ epoch := chanClosed ]> r)
      else Some (epoch, b, r)
  end.

Definition initGenesisBeacons (fuel : nat) (tb : TortoiseBeacon D) : option (TortoiseBeacon D) :=
  match initGenesisLoop fuel 0 (beacons tb) (beaconsReady tb) with
  | Some (epoch, b, r) => Some (set_registry b (<[ epoch := chanOpen ]> r) tb)
  | None => None
  end.

(** [if tb.tortoiseBeaconDB != nil { val, ok := tb.tortoiseBeaconDB.GetTortoiseBeacon(epochID) }] *)
Definition dbGet (tb : TortoiseBeacon D) (epochID : EpochID) : option Hash32 :=
  match tortoiseBeaconDB_ tb with
  | Some db => GetTortoiseBeacon db epochID
  | None => None
  end.

Definition Get (tb : TortoiseBeacon D) (epochID : EpochID) : TortoiseBeacon D * result Hash32 :=
  match dbGet tb epochID with
  | Some val => (tb, Ok val)
  | None =>
      match beacons tb !! epochID with
      | None => (tb, Err ErrBeaconNotCalculated)
      | Some beacon =>
          match tortoiseBeaconDB_ tb with
          | Some db =>
              match SetTortoiseBeacon db epochID beacon with
              | (db', Some err) => (set_db (Some db') tb, Err (ErrWrap "update beacon in DB" err))
              | (db', None) => (set_db (Some db') tb, Ok beacon)
              end
          | None => (tb, Ok beacon)
          end
      end
  end.

(** [binary.LittleEndian.PutUint64(ret, uint64(epochNumber))] on 32 zero bytes. *)
Definition mockBeacon (epochNumber : EpochID) : bytes :=
  rev (SHA256.be_bytes 8 (wrap64 epochNumber)) ++ repeat 0 24.

(** GetBeacon returns the mock value; the statements after the [return]
    (the call of [Wait], then [Get]) are never reached. *)
Definition GetBeacon (tb : TortoiseBeacon D) (epochNumber : EpochID)
  : TortoiseBeacon D * bytes :=
  (log_line "GetBeacon returns random mock beacon" tb, mockBeacon epochNumber).

(** [time.Duration(4 * float64(RoundsNumber) * float64(roundDuration))]; the
    detour through float64 is exact as long as the product is below 2^53. *)
Definition beaconCalcTimeout (tb : TortoiseBeacon D) : Z :=
  4 * config_RoundsNumber tb * roundDuration tb.

Definition fires_within (t : option Z) (limit : Z) : bool :=
  match t with
  | Some x => x <? limit
  | None => false
  end.

(** Wait: [None] when [waitUntilStarted] never returns, otherwise the error
    (or nil) and the time spent in the [select]. *)
Definition Wait (tb : TortoiseBeacon D) (epochID : EpochID) (f : future)
  : option (option error * Z) :=
  if negb (started tb || closed tb) then None
  else
    match dbGet tb epochID with
    | Some _ => Some (None, 0)
    | None =>
        match beaconsReady tb !! epochID with
        | None => Some (Some ErrBeaconNotCalculated, 0)
        | Some ready =>
            let timeout := beaconCalcTimeout tb in
            let r := match ready with chanClosed => Some 0 | chanOpen => readyAt f end in
            let cl := if closed tb then Some 0 else closeAt f in
            if fires_within r timeout then Some (None, default 0 r)
            else if fires_within cl timeout then Some (None, default 0 cl)
            else Some (Some ErrTimeout, timeout)
        end
    end.

Definition epochIsOutdated (tb : TortoiseBeacon D) (epoch : EpochID) : bool :=
  let lastEpoch := LayerID_GetEpoch c (lastLayer tb) in
  cleanupEpochs <? epoch_sub lastEpoch epoch.

Definition cleanup (tb : TortoiseBeacon D) : TortoiseBeacon D :=
  let gone (e : EpochID) : bool :=
    bool_decide (is_Some (beacons tb !! e)) && epochIsOutdated tb e in
  set_registry (filter (fun kv => gone kv.1 = false) (beacons tb))
               (filter (fun kv => gone kv.1 = false) (beaconsReady tb)) tb.

End Engine.

End TBReady.

(* ===================================================================== *)
(** ** Specification-side definitions and the data of the scenarios *)
(* ===================================================================== *)

Definition sumZ (l : list Z) : Z := foldr Z.add 0 l.

(** What one voter adds to the margin of [p]: [+w] for a valid vote, [-w] for
    an invalid one. *)
Definition contribution (w : Z) (v : votesSetPair) (p : proposal) : Z :=
  (if bool_decide (p ∈ ValidVotes v) then w else 0)
  - (if bool_decide (p ∈ InvalidVotes v) then w else 0).

(** The margin of [p] as section 4.C words it: the sum over the voters. *)
Definition margin_spec (weight : nodeID -> Z) (voters : gmap nodeID votesSetPair)
    (p : proposal) : Z :=
  sumZ (map (fun pkv => contribution (weight pkv.1) pkv.2 p) (map_to_list voters)).


(** A vote set pair is supported by [L] when it classifies exactly the
    entries of [L], each as valid or as invalid. *)
Definition classifies (v : votesSetPair) (L : Votes.proposals) : Prop :=
  (forall p, p ∈ Votes.firstRoundList L <-> p ∈ ValidVotes v \/ p ∈ InvalidVotes v)
  /\ (forall p, p ∈ ValidVotes v -> p ∉ InvalidVotes v).

(** The mocks of the test files: epoch weight 10, a broadcaster and a
    serializer that never fail; the first two epochs are genesis epochs and
    an epoch has three layers. *)
Definition mockCollaborators : collaborators := {|
  IsGenesis := fun e => e <? 2;
  GetEpochWeight := fun _ => Ok 10;
  InterfaceToBytes := fun _ => Ok [];
  vrfSigner_Sign := fun b => b;
  edSigner_Sign := fun b => b;
  Broadcast := fun _ _ => None;
  Bytes2Hex := fun _ => EmptyString;
  atxThreshold := fun _ => 0;
  mapOrder := elements;
  LayerID_GetEpoch := fun l => l / 3;
|}.

(** The same node when the ATX database cannot tell the epoch weight. *)
Definition weightlessCollaborators : collaborators := {|
  IsGenesis := fun e => e <? 2;
  GetEpochWeight := fun _ => Err (ErrExternal "no weight");
  InterfaceToBytes := fun _ => Ok [];
  vrfSigner_Sign := fun b => b;
  edSigner_Sign := fun b => b;
  Broadcast := fun _ _ => None;
  Bytes2Hex := fun _ => EmptyString;
  atxThreshold := fun _ => 0;
  mapOrder := elements;
  LayerID_GetEpoch := fun l => l / 3;
|}.

Definition memDB : Type := DBFile.DB (gmap bytes bytes).

Definition mockPhases : TB.phases memDB := {|
  TB.calcVotes := fun tb _ _ => (tb, Err (ErrExternal "no votes"));
  TB.runConsensusPhase := fun tb _ => (tb, Ok tt);
|}.

(** A node that was just created with [rounds] rounds per epoch. *)
Definition newNode (rounds : Z) (db : option memDB) : TB.TortoiseBeacon memDB :=
  TB.mkTB rounds "miner" db ∅ ∅ ∅ [] 0 [].

(** Scenario S1 and the "With Cache" case of TestTortoiseBeacon_calcBeacon. *)
Definition s1_votes : votesSetPair :=
  VotesSetPair {[ "0x1"; "0x2"; "0x4"; "0x5" ]}%string {[ "0x3"; "0x6" ]}%string.
Definition s1_node : TB.TortoiseBeacon memDB :=
  TB.set_ownVotes {[ (5, 3) := s1_votes ]} (newNode 3 None).
Definition s1_beacon : Hash32 :=
  HexToHash32 "0xd04dd0faf9b5d3baf04dd99152971b5db67b0b3c79e5cc59f8f7b03ab20673f8".

(** Scenario S3 and the case of TestTortoiseBeacon_encodeVotes. *)
Definition s3_first : Votes.proposals :=
  Votes.Proposals ["0x1"; "0x2"]%string ["0x3"]%string.
Definition s3_votes : votesSetPair :=
  VotesSetPair {[ "0x1"; "0x3" ]}%string {[ "0x2" ]}%string.

(** Scenario S4 and the case of TestTortoiseBeacon_firstRoundVotes. *)
Definition s4_incoming : gmap epochRoundPair (gmap nodeID votesSetPair) :=
  {[ (5, 1) :=
       {[ "pk1"%string := VotesSetPair {[ "0x1"; "0x2" ]}%string
                                        {[ "0x3"; "0x5"; "0x6" ]}%string;
          "pk2"%string := VotesSetPair {[ "0x1"; "0x4"; "0x5" ]}%string
                                        {[ "0x6" ]}%string ]} ]}.
Definition s4_margins : gmap proposal Z :=
  {[ "0x1"%string := 2; "0x2"%string := 1; "0x3"%string := -1;
     "0x4"%string := 1; "0x5"%string := 0; "0x6"%string := -2 ]}.


(** A vote set pair over [["0x1"]] that leaves the entry unclassified. *)
Definition unclassified_first : Votes.proposals := Votes.Proposals ["0x1"%string] [].
Definition unclassified_votes : votesSetPair := VotesSetPair ∅ ∅.

Definition maxEpoch : EpochID := 2 ^ 64 - 1.


(** A fresh node with an empty in-memory beacon DB. *)
Definition dbNode : TB.TortoiseBeacon memDB := newNode 3 (Some (DBFile.NewDB ∅)).

(** A node whose beacon DB already holds an entry for the genesis epoch 1. *)
Definition staleDBNode : TB.TortoiseBeacon memDB :=
  newNode 3 (Some (DBFile.NewDB {[ EpochID_ToBytes 1 := s1_beacon ]})).

(** A node after [Start]: the genesis beacons are in place, no DB. *)
Definition genesisNode : TB.TortoiseBeacon memDB :=
  default (newNode 3 None) (TB.initGenesisBeacons mockCollaborators 3 (newNode 3 None)).

(** A node of tortoisebeacon.go that has started epoch 5 and waits for its
    beacon: three rounds of one second (in nanoseconds) each. *)
Definition pendingNode : TBReady.TortoiseBeacon memDB :=
  TBReady.mkTB 3 1000000000 None 15 ∅ {[ 5 := TBReady.chanOpen ]} true false [].

(** A node that holds a beacon for the last epoch of the 64-bit range. *)
Definition farFutureNode : TB.TortoiseBeacon memDB :=
  TB.set_beacons {[ maxEpoch := zeroHash32 ]} (newNode 3 None).

(* ===================================================================== *)
(** ** More of tortoise_beacon.go and beacon_calc.go *)
(* ===================================================================== *)




Definition TBBeaconSyncPrevProtocol : string := "TBBeaconSyncPrev".

Module TBSync.

Section Engine.
Context {D : Type} `{!tortoiseBeaconDB D}.
Variable c : collaborators.

(** syncPrevBeacon of beacon_calc.go. *)
Definition syncPrevBeacon (tb : TB.TortoiseBeacon D) (epoch : EpochID) (beacon : Hash32)
  : TB.TortoiseBeacon D * result unit :=
  match TB.calcEligibilityProof c (BeaconSyncMessageBody (TB.minerID tb) epoch beacon) with
  | Err err => (tb, Err (ErrWrap "calcEligibilityProof" err))
  | Ok sig =>
      match TB.sendToGossip c tb TBBeaconSyncPrevProtocol
                            (BeaconSyncMessage (TB.minerID tb) epoch beacon sig) with
      | (tb1, Err err) => (tb1, Err (ErrWrap "sendToGossip" err))
      | (tb1, Ok _) => (tb1, Ok tt)
      end
  end.

End Engine.

End TBSync.

(** The laws of a key-value store that keeps what is put into it. *)
Definition store_lawful (S : Type) `{Database S} : Prop :=
  forall (st st' : S) (k v : bytes),
    store_Put st k v = (st', None) ->
    store_Get st' k = Ok v
    /\ forall k', k' <> k -> store_Get st' k' = store_Get st k'.

(** A beacon DB that returns a 32-byte beacon it has accepted. *)
Definition db_keeps_beacons (D : Type) `{tortoiseBeaconDB D} : Prop :=
  forall (db db' : D) (e : EpochID) (h : Hash32),
    SetTortoiseBeacon db e h = (db', None) ->
    length h = HashLength ->
    GetTortoiseBeacon db' e = Some h.

(* ===================================================================== *)
(** ** More of tortoisebeacon.go: layers, epochs and message.go *)
(* ===================================================================== *)

Module TBReadyEpoch.

(** message.go *)
Record ProposalMessage := NewProposalMessage {
  EpochID_ : EpochID;
  ProposalList : list Hash32;
}.

(** The collaborators of tortoisebeacon.go: the ATX getter, the serializer,
    the broadcaster, the hash of an ATX list, the weak coin and the layer
    arithmetic of common/types. *)
Record services := Services {
  epochATXGetter_GetEpochAtxs : EpochID -> list Hash32;
  types_InterfaceToBytes : ProposalMessage -> result bytes;
  net_Broadcast : string -> bytes -> option error;
  ATXIDList_Hash : list Hash32 -> Hash32;
  weakCoin_PublishProposal : EpochID -> RoundID -> option error;
  LayerID_FirstInEpoch : Z -> bool;
}.

(** The state of tortoisebeacon.go with the timely proposals and the
    payloads handed to the broadcaster. *)
Record Engine (D : Type) := mkEngine {
  core : TBReady.TortoiseBeacon D;
  timelyProposals : gmap EpochID (gset (list Z));
  sent : list (string * bytes);
}.
Arguments mkEngine {D}.
Arguments core {D} e.
Arguments timelyProposals {D} e.
Arguments sent {D} e.

Definition on_core {D : Type} (f : TBReady.TortoiseBeacon D -> TBReady.TortoiseBeacon D)
    (tb : Engine D) : Engine D :=
  mkEngine (f (core tb)) (timelyProposals tb) (sent tb).

(** [setStarted]: the [started] channel is closed once. *)
Definition setStarted {D : Type} (tb : TBReady.TortoiseBeacon D) : TBReady.TortoiseBeacon D :=
  TBReady.mkTB (TBReady.config_RoundsNumber tb) (TBReady.roundDuration tb)
    (TBReady.tortoiseBeaconDB_ tb) (TBReady.lastLayer tb) (TBReady.beacons tb)
    (TBReady.beaconsReady tb) true (TBReady.closed tb) (TBReady.Log tb).

Definition set_lastLayer {D : Type} (l : Z) (tb : TBReady.TortoiseBeacon D)
  : TBReady.TortoiseBeacon D :=
  TBReady.mkTB (TBReady.config_RoundsNumber tb) (TBReady.roundDuration tb)
    (TBReady.tortoiseBeaconDB_ tb) l (TBReady.beacons tb)
    (TBReady.beaconsReady tb) (TBReady.started tb) (TBReady.closed tb) (TBReady.Log tb).

(** The parts of handleEpoch made of goroutines and timers
    (runConsensusPhase) or absent from the sources (the calcBeacon of this
    version): they act on the state. *)
Record phases (D : Type) := Phases {
  runConsensusPhase : Engine D -> EpochID -> Engine D * option error;
  calcBeacon : Engine D -> EpochID -> Engine D;
}.
Arguments runConsensusPhase {D} p.
Arguments calcBeacon {D} p.

Section Engine.
Context {D : Type} `{!tortoiseBeaconDB D}.
Variable c : collaborators.
Variable s : services.
Variable ph : phases D.

Definition runProposalPhase (tb : Engine D) (epoch : EpochID) : Engine D * option error :=
  let atxList := epochATXGetter_GetEpochAtxs s (epoch_sub epoch 1) in
  if (length atxList =? 0)%nat then (tb, Some ErrEmptyProposalList)
  else
    let m := NewProposalMessage epoch atxList in
    match types_InterfaceToBytes s m with
    | Err err => (tb, Some (ErrWrap "serialize proposal message" err))
    | Ok serializedMessage =>
        match net_Broadcast s TBProposalProtocol serializedMessage with
        | Some err => (tb, Some (ErrWrap "broadcast proposal message" err))
        | None =>
            let proposalsHash := ATXIDList_Hash s atxList in
            let set := default ∅ (timelyProposals tb !! epoch) in
            let tb1 := mkEngine (core tb)
                         (<[ epoch := {[ proposalsHash ]} ∪ set ]> (timelyProposals tb))
                         (sent tb ++ [(TBProposalProtocol, serializedMessage)]) in
            match weakCoin_PublishProposal s epoch 1 with
            | Some err =>
                (on_core (TBReady.log_line "Failed to publish weak coin message") tb1, None)
            | None => (tb1, None)
            end
        end
    end.

Definition handleEpoch (tb : Engine D) (epoch : EpochID) : Engine D :=
  if IsGenesis c epoch then tb
  else
    let ready := TBReady.beaconsReady (core tb) in
    let ready' := match ready !! epoch with
                  | Some _ => ready
                  | None => <[ epoch := TBReady.chanOpen ]> ready
                  end in
    let tb0 := on_core (fun t => TBReady.set_registry (TBReady.beacons t) ready'
                                   (setStarted t)) tb in
    match runProposalPhase tb0 epoch with
    | (tb1, Some err) => on_core (TBReady.log_line "Failed to send proposal") tb1
    | (tb1, None) =>
        let tb2 :=
          match runConsensusPhase ph tb1 epoch with
          | (tb2, Some err) => on_core (TBReady.log_line "Failed to run consensus phase") tb2
          | (tb2, None) => tb2
          end in
        calcBeacon ph tb2 epoch
    end.

Definition handleLayer (tb : Engine D) (layer : Z) : Engine D :=
  let tb0 := if TBReady.lastLayer (core tb) <? layer
             then on_core (set_lastLayer layer) tb else tb in
  let epoch := LayerID_GetEpoch c layer in
  if negb (LayerID_FirstInEpoch s layer) then tb0
  else handleEpoch tb0 epoch.

End Engine.

End TBReadyEpoch.

(** The phases of an engine under test: the consensus phase fails, the vote
    calculation is not available. *)
Definition brokenConsensus : TB.phases memDB := {|
  TB.calcVotes := fun tb _ _ => (tb, Err (ErrExternal "no votes"));
  TB.runConsensusPhase := fun tb _ => (tb, Err (ErrExternal "closed"));
|}.

(** A node whose signature passes every threshold check. *)
Definition eagerCollaborators : collaborators := {|
  IsGenesis := fun e => e <? 2;
  GetEpochWeight := fun _ => Ok 10;
  InterfaceToBytes := fun _ => Ok [1; 2; 3];
  vrfSigner_Sign := fun b => b;
  edSigner_Sign := fun b => b;
  Broadcast := fun _ _ => None;
  Bytes2Hex := fun _ => "010203"%string;
  atxThreshold := fun _ => 2 ^ 512;
  mapOrder := elements;
  LayerID_GetEpoch := fun l => l / 3;
|}.

(** The same node behind a broadcaster that is down. *)
Definition offlineCollaborators : collaborators := {|
  IsGenesis := fun e => e <? 2;
  GetEpochWeight := fun _ => Ok 10;
  InterfaceToBytes := fun _ => Ok [1; 2; 3];
  vrfSigner_Sign := fun b => b;
  edSigner_Sign := fun b => b;
  Broadcast := fun _ _ => Some (ErrExternal "no peers");
  Bytes2Hex := fun _ => "010203"%string;
  atxThreshold := fun _ => 2 ^ 512;
  mapOrder := elements;
  LayerID_GetEpoch := fun l => l / 3;
|}.

(** The services of a node of tortoisebeacon.go that sees no ATX at all. *)
Definition noATXServices : TBReadyEpoch.services := {|
  TBReadyEpoch.epochATXGetter_GetEpochAtxs := fun _ => [];
  TBReadyEpoch.types_InterfaceToBytes := fun _ => Ok [];
  TBReadyEpoch.net_Broadcast := fun _ _ => None;
  TBReadyEpoch.ATXIDList_Hash := fun _ => zeroHash32;
  TBReadyEpoch.weakCoin_PublishProposal := fun _ _ => None;
  TBReadyEpoch.LayerID_FirstInEpoch := fun l => l mod 3 =? 0;
|}.

Definition idlePhases : TBReadyEpoch.phases memDB := {|
  TBReadyEpoch.runConsensusPhase := fun tb _ => (tb, None);
  TBReadyEpoch.calcBeacon := fun tb _ => tb;
|}.

(** A node of tortoisebeacon.go before its first layer: three rounds of one
    second, nothing recorded, not started. *)
Definition freshReadyNode : TBReady.TortoiseBeacon memDB :=
  TBReady.mkTB 3 1000000000 None 0 ∅ ∅ false false [].
Definition freshEngine : TBReadyEpoch.Engine memDB :=
  TBReadyEpoch.mkEngine freshReadyNode ∅ [].

(** A started node at layer 30000 with an empty beacon DB that still holds
    the beacon of epoch 5 in memory. *)
Definition freshReadyDBNode : TBReady.TortoiseBeacon memDB :=
  TBReady.mkTB 3 1000000000 (Some (DBFile.NewDB ∅)) 30000 {[ 5 := s1_beacon ]}
               {[ 5 := TBReady.chanClosed ]} true false [].

(* ===================================================================== *)
(** * Theorems *)
(* ===================================================================== *)

(** ** Beacon derivation (beacon_calc.go) *)

Lemma le_neq_lex_lt (a b : string) : String.le a b -> a <> b -> lex_lt a b.
Proof.
  unfold String.le, String.leb, lex_lt, String.ltb.
  destruct (String.compare a b) eqn:E; simpl; intros Hle Hne; try done.
  apply String.compare_eq_iff in E. contradiction.
Qed.

Lemma StronglySorted_NoDup_strict (l : list string) :
  StronglySorted String.le l -> NoDup l -> Sorted lex_lt l.
Proof.
  induction 1 as [|x l Hs IH Hall]; intros Hnd; [constructor|].
  apply NoDup_cons in Hnd as [Hx Hnd].
  constructor; [by apply IH|].
  destruct l as [|y l']; constructor.
  apply Forall_cons in Hall as [Hxy _].
  apply le_neq_lex_lt; [done|].
  intros ->. apply Hx. by left.
Qed.

(** The order in which the map is ranged over does not show in the result. *)
Lemma sort_Slice_Permutation (l1 l2 : proposalList) :
  l1 ≡ₚ l2 -> sort_Slice l1 = sort_Slice l2.
Proof.
  intros Hp. unfold sort_Slice.
  apply (Sorted_unique String.le); try apply Sorted_merge_sort; try apply _.
  by rewrite !merge_sort_Permutation.
Qed.

Lemma sort_Slice_elements (s : hashSet) :
  let l := sort_Slice (elements s) in
  Sorted lex_lt l /\ NoDup l /\ (forall p, p ∈ l <-> p ∈ s).
Proof.
  intros l. subst l. unfold sort_Slice.
  assert (Hp : merge_sort String.le (elements s) ≡ₚ elements s)
    by apply merge_sort_Permutation.
  assert (Hnd : NoDup (merge_sort String.le (elements s)))
    by (rewrite Hp; apply NoDup_elements).
  split; [|split; [done|]].
  - apply StronglySorted_NoDup_strict; [|done].
    apply StronglySorted_merge_sort; apply _.
  - intros p. rewrite Hp. apply elem_of_elements.
Qed.

Section BeaconDerivation.
Context {D : Type} `{!tortoiseBeaconDB D}.
Variable c : collaborators.
Variable ph : TB.phases D.
Hypothesis Horder : mapOrder_ok c.

Lemma sendToGossip_beacons (tb : TB.TortoiseBeacon D) ch m :
  TB.beacons (TB.sendToGossip c tb ch m).1 = TB.beacons tb.
Proof.
  unfold TB.sendToGossip.
  destruct (InterfaceToBytes c m); [|done].
  by destruct (Broadcast c ch a).
Qed.

Lemma syncBeacon_beacons (tb : TB.TortoiseBeacon D) epoch beacon :
  TB.beacons (TB.syncBeacon c tb epoch beacon).1 = TB.beacons tb.
Proof.
  unfold TB.syncBeacon.
  destruct (TB.calcEligibilityProof c _) as [sig|]; [|done].
  pose proof (sendToGossip_beacons tb TBBeaconSyncProtocol
                (BeaconSyncMessage (TB.minerID tb) epoch beacon sig)) as Hs.
  destruct (TB.sendToGossip c tb _ _) as [tb1 [u|e]]; exact Hs.
Qed.

Lemma hashList_cached (tb : TB.TortoiseBeacon D) epoch votes :
  TB.ownVotes tb !! (epoch, TB.lastPossibleRound tb) = Some votes ->
  TB.calcTortoiseBeaconHashList c ph tb epoch
  = (tb, Ok (sort_Slice (elements (ValidVotes votes)))).
Proof.
  intros Hv. unfold TB.calcTortoiseBeaconHashList. cbv zeta. rewrite Hv.
  by rewrite (sort_Slice_Permutation _ _ (Horder (ValidVotes votes))).
Qed.

Lemma hashList_recalculated (tb tb1 : TB.TortoiseBeacon D) epoch v :
  TB.ownVotes tb !! (epoch, TB.lastPossibleRound tb) = None ->
  TB.calcVotes ph tb epoch (TB.lastPossibleRound tb) = (tb1, Ok v) ->
  TB.calcTortoiseBeaconHashList c ph tb epoch
  = (TB.set_ownVotes (<[ (epoch, TB.lastPossibleRound tb) := v ]> (TB.ownVotes tb1)) tb1,
     Ok (sort_Slice (elements (ValidVotes v)))).
Proof.
  intros Hv Hc. unfold TB.calcTortoiseBeaconHashList. cbv zeta. rewrite Hv.
  simpl. rewrite Hc.
  by rewrite (sort_Slice_Permutation _ _ (Horder (ValidVotes v))).
Qed.

Lemma hashList_result (tb tb' : TB.TortoiseBeacon D) epoch hashes :
  TB.calcTortoiseBeaconHashList c ph tb epoch = (tb', Ok hashes) ->
  exists votes,
    TB.ownVotes tb' !! (epoch, TB.lastPossibleRound tb) = Some votes
    /\ hashes = sort_Slice (elements (ValidVotes votes)).
Proof.
  destruct (TB.ownVotes tb !! (epoch, TB.lastPossibleRound tb)) as [votes|] eqn:Hv.
  - rewrite (hashList_cached _ _ _ Hv). intros [= <- <-]. eauto.
  - destruct (TB.calcVotes ph tb epoch (TB.lastPossibleRound tb)) as [tb1 [v|e]] eqn:Hc.
    + rewrite (hashList_recalculated _ _ _ _ Hv Hc). intros [= <- <-].
      exists v. split; [|done]. simpl. apply lookup_insert_eq.
    + unfold TB.calcTortoiseBeaconHashList. cbv zeta. rewrite Hv. simpl.
      rewrite Hc. done.
Qed.

Lemma calcBeacon_stores (tb tb' : TB.TortoiseBeacon D) epoch hashes :
  TB.calcTortoiseBeaconHashList c ph tb epoch = (tb', Ok hashes) ->
  TB.beacons (TB.calcBeacon c ph tb epoch).1 !! epoch = Some (proposalList_Hash hashes).
Proof.
  intros Hl. unfold TB.calcBeacon. rewrite Hl.
  pose proof (syncBeacon_beacons
    (TB.set_beacons (<[ epoch := proposalList_Hash hashes ]> (TB.beacons tb')) tb')
    epoch (proposalList_Hash hashes)) as Hs.
  destruct (TB.syncBeacon c _ epoch _) as [tb3 [u|e]]; simpl in *;
    rewrite Hs; apply lookup_insert_eq.
Qed.

End BeaconDerivation.

(** C1. For every epoch the hash list is the node's own last-round
    ValidVotes in strictly ascending lexicographic order, whatever order the
    map is ranged over, and calcBeacon records the digest of that list as the
    beacon of the epoch; with three rounds, epoch 5 and own last-round
    ValidVotes 0x1, 0x2, 0x4, 0x5 the beacon is 0xd04dd0fa...0673f8. *)
Theorem beacon_is_digest_of_sorted_own_valid_votes
    (D : Type) (HD : tortoiseBeaconDB D) (c : collaborators) (ph : TB.phases D) :
  mapOrder_ok c ->
  (forall (tb tb' : TB.TortoiseBeacon D) (epoch : EpochID) (hashes : proposalList),
      TB.calcTortoiseBeaconHashList c ph tb epoch = (tb', Ok hashes) ->
      exists votes,
        TB.ownVotes tb' !! (epoch, TB.lastPossibleRound tb) = Some votes
        /\ hashes = sort_Slice (elements (ValidVotes votes))
        /\ Sorted lex_lt hashes /\ NoDup hashes
        /\ (forall p, p ∈ hashes <-> p ∈ ValidVotes votes)
        /\ TB.beacons (TB.calcBeacon c ph tb epoch).1 !! epoch
           = Some (proposalList_Hash hashes))
  /\ (forall (tb : TB.TortoiseBeacon D) (epoch : EpochID) (votes : votesSetPair),
      TB.ownVotes tb !! (epoch, TB.lastPossibleRound tb) = Some votes ->
      TB.calcTortoiseBeaconHashList c ph tb epoch
      = (tb, Ok (sort_Slice (elements (ValidVotes votes)))))
  /\ (forall tb : TB.TortoiseBeacon D,
      TB.config_RoundsNumber tb = 3 ->
      TB.ownVotes tb !! (5, 3) = Some s1_votes ->
      TB.calcTortoiseBeaconHashList c ph tb 5
      = (tb, Ok ["0x1"; "0x2"; "0x4"; "0x5"]%string)
      /\ TB.beacons (TB.calcBeacon c ph tb 5).1 !! 5 = Some s1_beacon).
Proof.
  intros Horder. split; [|split].
  - intros tb tb' epoch hashes Hl.
    destruct (hashList_result c ph Horder _ _ _ _ Hl) as (votes & Hv & ->).
    exists votes.
    destruct (sort_Slice_elements (ValidVotes votes)) as (Hs & Hnd & Hin).
    repeat split; try done; try apply Hin.
    by apply (calcBeacon_stores c ph tb tb').
  - intros tb epoch votes Hv. by apply hashList_cached.
  - intros tb HK Hv.
    assert (Hl : TB.calcTortoiseBeaconHashList c ph tb 5
                 = (tb, Ok ["0x1"; "0x2"; "0x4"; "0x5"]%string)).
    { rewrite (hashList_cached c ph Horder tb 5 s1_votes).
      - f_equal.
      - unfold TB.lastPossibleRound. by rewrite HK. }
    split; [done|].
    rewrite (calcBeacon_stores c ph tb tb 5 _ Hl). f_equal.
Qed.

Lemma beacon_is_digest_of_sorted_own_valid_votes_witness :
  TB.beacons (TB.calcBeacon mockCollaborators mockPhases s1_node 5).1 !! 5 = Some s1_beacon.
Proof.
  assert (Hm : mapOrder_ok mockCollaborators) by (intros s; reflexivity).
  apply (proj2 (proj2 (beacon_is_digest_of_sorted_own_valid_votes
                         memDB _ mockCollaborators mockPhases Hm)));
    reflexivity.
Defined.

(** ** The vote codec (votes_encoder.go) *)

Lemma testbit_word_of_bits (bs : list bool) (i : nat) :
  Z.testbit (Votes.word_of_bits bs) (Z.of_nat i) = nth i bs false.
Proof.
  revert i. induction bs as [|b bs IH]; intros i; simpl.
  - rewrite Z.testbit_0_l. by destruct i.
  - rewrite (Z.add_comm (Z.b2z b)). destruct i as [|i].
    + apply Z.testbit_0_r.
    + rewrite Nat2Z.inj_succ, Z.testbit_succ_r by lia. apply IH.
Qed.

Lemma word_of_bits_range (bs : list bool) :
  0 <= Votes.word_of_bits bs < 2 ^ Z.of_nat (length bs).
Proof.
  induction bs as [|b bs IH]; simpl length; simpl Votes.word_of_bits; [simpl; lia|].
  rewrite Nat2Z.inj_succ, Z.pow_succ_r by lia.
  destruct b; simpl Z.b2z; lia.
Qed.

Lemma bit_at_pack_bits (bs : list bool) (i : nat) :
  (i < length bs)%nat -> Votes.bit_at (Votes.pack_bits bs) i = nth i bs false.
Proof.
  intros Hi. unfold Votes.bit_at, Votes.pack_bits, Votes.wordSize.
  assert (Hq : (i / 64 < (length bs + 63) / 64)%nat).
  { apply Nat.Div0.div_lt_upper_bound.
    pose proof (Nat.Div0.div_mod (length bs + 63) 64).
    pose proof (Nat.mod_upper_bound (length bs + 63) 64). lia. }
  rewrite (nth_lookup_Some _ _ 0
             (Votes.word_of_bits (take 64 (drop (i / 64 * 64) bs)))).
  2:{ change (map ?f ?l) with (f <$> l).
      rewrite list_lookup_fmap, lookup_seq_lt by done. done. }
  rewrite testbit_word_of_bits, !nth_lookup.
  rewrite lookup_take_lt by (apply Nat.mod_upper_bound; lia).
  rewrite lookup_drop. do 2 f_equal.
  pose proof (Nat.Div0.div_mod i 64). lia.
Qed.

Lemma pack_bits_length (bs : list bool) :
  length (Votes.pack_bits bs) = ((length bs + 63) / 64)%nat.
Proof. unfold Votes.pack_bits. by rewrite length_map, length_seq. Qed.

Lemma pack_bits_words (bs : list bool) :
  Forall (fun w => 0 <= w < 2 ^ 64) (Votes.pack_bits bs).
Proof.
  unfold Votes.pack_bits. apply Forall_forall. intros w Hw.
  apply list_elem_of_fmap in Hw as (j & -> & _).
  pose proof (word_of_bits_range (take Votes.wordSize (drop (j * Votes.wordSize) bs))) as Hr.
  assert (Hlen : (length (take Votes.wordSize (drop (j * Votes.wordSize) bs)) <= 64)%nat).
  { rewrite length_take. unfold Votes.wordSize. lia. }
  split; [lia|].
  eapply Z.lt_le_trans; [apply Hr|].
  apply Z.pow_le_mono_r; lia.
Qed.

Lemma decodeFrom_valid (bv : list Z) (l : list string) :
  forall (k : nat) (acc : votesSetPair) (p : string),
    p ∈ ValidVotes (Votes.decodeFrom bv k l acc)
    <-> p ∈ ValidVotes acc
        \/ exists i, l !! i = Some p /\ Votes.bit_at bv (k + i) = true.
Proof.
  induction l as [|q l IH]; intros k acc p; simpl.
  - split; [by left|]. intros [H|(i & Hi & _)]; [done|]. by destruct i.
  - rewrite IH. unfold Votes.decodeStep. simpl. split.
    + intros [H|(i & Hi & Hb)].
      * destruct (Votes.bit_at bv k) eqn:Hk; simpl in H; [|by left].
        apply elem_of_union in H as [H|H]; [|by left].
        apply elem_of_singleton in H as ->.
        right. exists 0%nat. by rewrite Nat.add_0_r.
      * right. exists (S i). split; [done|]. by rewrite Nat.add_succ_r.
    + intros [H|(i & Hi & Hb)].
      * left. destruct (Votes.bit_at bv k); simpl; [|done]. set_solver.
      * destruct i as [|i]; simpl in Hi.
        -- injection Hi as ->. rewrite Nat.add_0_r in Hb. rewrite Hb. simpl.
           left. set_solver.
        -- right. exists i. split; [done|]. by rewrite Nat.add_succ_r in Hb.
Qed.

Lemma decodeFrom_invalid (bv : list Z) (l : list string) :
  forall (k : nat) (acc : votesSetPair) (p : string),
    p ∈ InvalidVotes (Votes.decodeFrom bv k l acc)
    <-> p ∈ InvalidVotes acc
        \/ exists i, l !! i = Some p /\ Votes.bit_at bv (k + i) = false.
Proof.
  induction l as [|q l IH]; intros k acc p; simpl.
  - split; [by left|]. intros [H|(i & Hi & _)]; [done|]. by destruct i.
  - rewrite IH. unfold Votes.decodeStep. simpl. split.
    + intros [H|(i & Hi & Hb)].
      * destruct (Votes.bit_at bv k) eqn:Hk; simpl in H; [by left|].
        apply elem_of_union in H as [H|H]; [|by left].
        apply elem_of_singleton in H as ->.
        right. exists 0%nat. by rewrite Nat.add_0_r.
      * right. exists (S i). split; [done|]. by rewrite Nat.add_succ_r.
    + intros [H|(i & Hi & Hb)].
      * left. destruct (Votes.bit_at bv k); simpl; [done|]. set_solver.
      * destruct i as [|i]; simpl in Hi.
        -- injection Hi as ->. rewrite Nat.add_0_r in Hb. rewrite Hb. simpl.
           left. set_solver.
        -- right. exists i. split; [done|]. by rewrite Nat.add_succ_r in Hb.
Qed.

Lemma votesSetPair_eq (a b : votesSetPair) :
  ValidVotes a = ValidVotes b -> InvalidVotes a = InvalidVotes b -> a = b.
Proof. destruct a, b; simpl; by intros -> ->. Qed.

(** Bit [i] of the encoding tells whether [L[i]] is a current valid vote. *)
Lemma encodeVotes_bit (v : votesSetPair) (L : Votes.proposals) (i : nat) (p : string) :
  Votes.firstRoundList L !! i = Some p ->
  Votes.bit_at (Votes.encodeVotes v L) i = bool_decide (p ∈ ValidVotes v).
Proof.
  intros Hi. unfold Votes.encodeVotes.
  rewrite bit_at_pack_bits.
  - apply nth_lookup_Some.
    change (map ?f ?l) with (f <$> l). by rewrite list_lookup_fmap, Hi.
  - rewrite length_map. by apply lookup_lt_is_Some_1.
Qed.

(** C2, as the codec allows it. For every first-round list pair [L] and every
    vote set pair [v] that classifies exactly the entries of [L] (each entry
    is a valid or an invalid vote of [v], never both), decoding the encoding
    of [v] gives [v] back; bit [i] of the bit vector is 1 iff [L[i]] is a
    current valid vote and 0 iff it is a current invalid vote; the vector has
    [|L|] bits rounded up to whole 64-bit words. *)
Theorem decodeVotes_encodeVotes (v : votesSetPair) (L : Votes.proposals) :
  classifies v L ->
  Votes.decodeVotes (Votes.encodeVotes v L) L = v
  /\ (forall (i : nat) (p : string),
        Votes.firstRoundList L !! i = Some p ->
        (Votes.bit_at (Votes.encodeVotes v L) i = true <-> p ∈ ValidVotes v)
        /\ (Votes.bit_at (Votes.encodeVotes v L) i = false <-> p ∈ InvalidVotes v))
  /\ length (Votes.encodeVotes v L) = ((length (Votes.firstRoundList L) + 63) / 64)%nat
  /\ Forall (fun w => 0 <= w < 2 ^ 64) (Votes.encodeVotes v L).
Proof.
  intros [Hcover Hdisj].
  assert (Hbits : forall (i : nat) (p : string),
             Votes.firstRoundList L !! i = Some p ->
             (Votes.bit_at (Votes.encodeVotes v L) i = true <-> p ∈ ValidVotes v)
             /\ (Votes.bit_at (Votes.encodeVotes v L) i = false <-> p ∈ InvalidVotes v)).
  { intros i p Hi. rewrite (encodeVotes_bit v L i p Hi).
    assert (Hp : p ∈ Votes.firstRoundList L) by (apply list_elem_of_lookup; eauto).
    apply Hcover in Hp.
    rewrite bool_decide_eq_true, bool_decide_eq_false. split; [done|].
    split; [intros Hn; by destruct Hp | intros Hi' Hv; by apply (Hdisj p)]. }
  split; [|split; [exact Hbits|split]].
  - unfold Votes.decodeVotes.
    apply votesSetPair_eq; apply set_eq; intros p.
    + rewrite decodeFrom_valid. simpl. split.
      * intros [H|(i & Hi & Hb)]; [set_solver|]. by apply (Hbits i p Hi).
      * intros Hp. right.
        assert (HL : p ∈ Votes.firstRoundList L) by (apply Hcover; by left).
        apply list_elem_of_lookup in HL as [i Hi]. exists i. split; [done|].
        by apply (Hbits i p Hi).
    + rewrite decodeFrom_invalid. simpl. split.
      * intros [H|(i & Hi & Hb)]; [set_solver|]. by apply (Hbits i p Hi).
      * intros Hp. right.
        assert (HL : p ∈ Votes.firstRoundList L) by (apply Hcover; by right).
        apply list_elem_of_lookup in HL as [i Hi]. exists i. split; [done|].
        by apply (Hbits i p Hi).
  - unfold Votes.encodeVotes. by rewrite pack_bits_length, length_map.
  - apply pack_bits_words.
Qed.

Lemma decodeVotes_encodeVotes_witness :
  Votes.encodeVotes s3_votes s3_first = [5]
  /\ Votes.decodeVotes (Votes.encodeVotes s3_votes s3_first) s3_first = s3_votes.
Proof.
  split; [reflexivity|].
  apply (decodeVotes_encodeVotes s3_votes s3_first). split.
  - intros p. unfold s3_first, s3_votes, Votes.firstRoundList. simpl.
    rewrite !elem_of_cons, elem_of_nil. set_solver.
  - intros p. unfold s3_votes. simpl. rewrite !elem_of_union, !elem_of_singleton.
    intros [->| ->]; intros [=].
Defined.

(** C2 as it is written fails: a vote set pair all of whose proposals are in
    [L], but which leaves an entry of [L] unclassified, does not come back
    from the codec; it even has the encoding of a different vote set pair. *)
Lemma decodeVotes_encodeVotes_unclassified :
  (forall p, p ∈ ValidVotes unclassified_votes \/ p ∈ InvalidVotes unclassified_votes ->
             p ∈ Votes.firstRoundList unclassified_first)
  /\ Votes.decodeVotes (Votes.encodeVotes unclassified_votes unclassified_first)
                       unclassified_first
     <> unclassified_votes
  /\ Votes.encodeVotes unclassified_votes unclassified_first
     = Votes.encodeVotes (VotesSetPair ∅ {[ "0x1"%string ]}) unclassified_first.
Proof.
  split; [|split].
  - intros p [H|H]; simpl in H; set_solver.
  - intros Heq.
    assert (Hin : "0x1"%string ∈ InvalidVotes
              (Votes.decodeVotes (Votes.encodeVotes unclassified_votes unclassified_first)
                                 unclassified_first)).
    { apply decodeFrom_invalid. right. exists 0%nat. split; reflexivity. }
    rewrite Heq in Hin. simpl in Hin. set_solver.
  - reflexivity.
Qed.

(** ** The first-round tally (votes_calc.go) *)

Lemma margin_at_addMargin (w : Z) (m : gmap string Z) (p q : string) :
  Votes.margin_at (Votes.addMargin w m p) q
  = Votes.margin_at m q + (if bool_decide (p = q) then w else 0).
Proof.
  unfold Votes.addMargin, Votes.margin_at. case_bool_decide as Hpq.
  - subst q. by rewrite lookup_insert_eq.
  - rewrite lookup_insert_ne by done. lia.
Qed.

Lemma margin_at_fold_addMargin (w : Z) (l : list string) :
  NoDup l ->
  forall (m : gmap string Z) (q : string),
    Votes.margin_at (fold_left (Votes.addMargin w) l m) q
    = Votes.margin_at m q + (if bool_decide (q ∈ l) then w else 0).
Proof.
  induction 1 as [|p l Hp Hnd IH]; intros m q; cbn [fold_left].
  - rewrite bool_decide_eq_false_2 by apply not_elem_of_nil. lia.
  - rewrite IH, margin_at_addMargin.
    destruct (decide (p = q)) as [->|Hne].
    + rewrite (bool_decide_eq_true_2 (q = q)) by done.
      rewrite (bool_decide_eq_false_2 (q ∈ l)) by done.
      rewrite (bool_decide_eq_true_2 (q ∈ q :: l)) by (by left). lia.
    + rewrite (bool_decide_eq_false_2 (p = q)) by done.
      rewrite (bool_decide_ext (q ∈ p :: l) (q ∈ l)); [lia|].
      rewrite elem_of_cons. naive_solver.
Qed.

Lemma margin_at_tallyVoter (w : Z) (v : votesSetPair) (m : gmap string Z) (q : string) :
  Votes.margin_at (Votes.tallyVoter w v m) q = Votes.margin_at m q + contribution w v q.
Proof.
  unfold Votes.tallyVoter, contribution.
  rewrite !margin_at_fold_addMargin by apply NoDup_elements.
  rewrite (bool_decide_ext (q ∈ elements (ValidVotes v)) (q ∈ ValidVotes v))
    by apply elem_of_elements.
  rewrite (bool_decide_ext (q ∈ elements (InvalidVotes v)) (q ∈ InvalidVotes v))
    by apply elem_of_elements.
  repeat case_bool_decide; lia.
Qed.

Lemma margin_at_fold_tallyVoter (weight : string -> Z)
    (voters : list (string * votesSetPair)) :
  forall (m : gmap string Z) (q : string),
    Votes.margin_at
      (fold_left (fun m pkv => Votes.tallyVoter (weight pkv.1) pkv.2 m) voters m) q
    = Votes.margin_at m q
      + sumZ (map (fun pkv => contribution (weight pkv.1) pkv.2 q) voters).
Proof.
  induction voters as [|[pk v] voters IH]; intros m q; simpl.
  - lia.
  - rewrite IH, margin_at_tallyVoter. simpl. lia.
Qed.

(** C3. After the first-round votes of an epoch are tallied, the margin of
    every proposal is the sum over the voters of [+w(v)] when the proposal is
    in [v.ValidVotes] and of [-w(v)] when it is in [v.InvalidVotes]; the two
    voters of scenario S4 with unit weights give the margins 0x1:+2, 0x2:+1,
    0x3:-1, 0x4:+1, 0x5:0, 0x6:-2. *)
Theorem firstRoundVotes_margin :
  (forall (weight : nodeID -> Z)
          (incomingVotes : gmap epochRoundPair (gmap nodeID votesSetPair))
          (epoch : EpochID) (p : proposal),
      Votes.margin_at (Votes.firstRoundVotes weight incomingVotes epoch) p
      = margin_spec weight (default ∅ (incomingVotes !! (epoch, firstRound))) p)
  /\ Votes.firstRoundVotes (fun _ => 1) s4_incoming 5 = s4_margins
  /\ (forall pk epoch, TB.voteWeight pk epoch = Ok 1).
Proof.
  split; [|split].
  - intros weight incomingVotes epoch p.
    unfold Votes.firstRoundVotes, margin_spec.
    rewrite margin_at_fold_tallyVoter. unfold Votes.margin_at.
    rewrite lookup_empty. simpl. lia.
  - vm_compute. reflexivity.
  - reflexivity.
Qed.

(** ** The adoption rule (votes_calc.go) *)








(** ** GetBeacon and the genesis beacons (tortoise_beacon.go) *)

Lemma genesisBeacon_zero : genesisBeacon = zeroHash32.
Proof. reflexivity. Qed.

Lemma wrap64_small (x : Z) : 0 <= x < 2 ^ 64 -> wrap64 x = x.
Proof. intros Hx. unfold wrap64, uint64_modulus. by apply Z.mod_small. Qed.

Section GetBeaconFacts.
Context {D : Type} `{!tortoiseBeaconDB D}.
Variable c : collaborators.

(** While the beacon of the previous epoch is missing, each attempt sleeps
    one second and nothing but the log and the clock changes. *)
Lemma getBeaconLoop_absent (n : nat) (e : EpochID) :
  forall tb : TB.TortoiseBeacon D,
    TB.beacons tb !! epoch_sub e 1 = None ->
    let r := TB.getBeaconLoop n e tb in
    r.2 = zeroHash32
    /\ TB.slept r.1 = TB.slept tb + Z.of_nat n
    /\ TB.beacons r.1 = TB.beacons tb
    /\ TB.tortoiseBeaconDB_ r.1 = TB.tortoiseBeaconDB_ tb
    /\ TB.ownVotes r.1 = TB.ownVotes tb
    /\ TB.net r.1 = TB.net tb.
Proof.
  induction n as [|n IH]; intros tb Hb; cbn [TB.getBeaconLoop].
  - simpl. repeat split; lia.
  - rewrite Hb.
    destruct (IH (TB.time_Sleep 1 (TB.log_line "beacon not calculated yet, waiting" tb)) Hb)
      as (H1 & H2 & H3 & H4 & H5 & H6).
    cbv zeta. rewrite H1, H2, H3, H4, H5, H6. simpl. repeat split; lia.
Qed.

Lemma getBeaconLoop_present (n : nat) (e : EpochID) (tb : TB.TortoiseBeacon D) (b : Hash32) :
  TB.beacons tb !! epoch_sub e 1 = Some b ->
  TB.getBeaconLoop (S n) e tb = (tb, b).
Proof. intros Hb. cbn [TB.getBeaconLoop]. by rewrite Hb. Qed.

Lemma GetBeacon_from_DB (tb : TB.TortoiseBeacon D) (e : EpochID) (val : Hash32) :
  TB.dbGet tb e = Some val -> TB.GetBeacon c tb e = (tb, Ok val).
Proof. intros Hdb. unfold TB.GetBeacon. by rewrite Hdb. Qed.

Lemma GetBeacon_after_genesis (tb : TB.TortoiseBeacon D) (e : EpochID) :
  TB.dbGet tb e = None ->
  IsGenesis c (epoch_sub e 1) = true ->
  TB.GetBeacon c tb e = (tb, Ok zeroHash32).
Proof. intros Hdb Hg. unfold TB.GetBeacon. by rewrite Hdb, Hg. Qed.

Lemma initGenesisLoop_segment (n : Z) (fuel : nat) :
  0 <= n < 2 ^ 64 ->
  (forall e, 0 <= e < 2 ^ 64 -> IsGenesis c e = (e <? n)) ->
  forall (k : Z) (b : gmap Z (list Z)),
    0 <= k <= n -> n - k < Z.of_nat fuel ->
    exists b', TB.initGenesisLoop c fuel k b = Some b'
      /\ (forall e, k <= e < n -> b' !! e = Some zeroHash32)
      /\ (forall e, ~ (k <= e < n) -> b' !! e = b !! e).
Proof.
  intros Hn Hgen. induction fuel as [|fuel IH]; intros k b Hk Hfuel; [lia|].
  cbn [TB.initGenesisLoop]. rewrite Hgen by lia.
  destruct (Z.ltb_spec k n) as [Hlt|Hge].
  - unfold epoch_succ. rewrite wrap64_small by lia.
    destruct (IH (k + 1) (<[ k := genesisBeacon ]> b)) as (b' & Hb' & Hin & Hout); [lia..|].
    exists b'. split; [done|]. split.
    + intros e He. destruct (decide (e = k)) as [->|Hne].
      * rewrite Hout by lia. by rewrite lookup_insert_eq.
      * apply Hin. lia.
    + intros e He. rewrite Hout by lia. apply lookup_insert_ne. lia.
  - exists b. split; [done|]. split; [lia|done].
Qed.

End GetBeaconFacts.

Lemma initGenesisLoop_ready_segment (c : collaborators) (n : Z) (fuel : nat) :
  0 <= n < 2 ^ 64 ->
  (forall e, 0 <= e < 2 ^ 64 -> IsGenesis c e = (e <? n)) ->
  forall (k : Z) (b : gmap Z (list Z)) (r : gmap Z TBReady.chan),
    0 <= k <= n -> n - k < Z.of_nat fuel ->
    exists b' r', TBReady.initGenesisLoop c fuel k b r = Some (n, b', r')
      /\ (forall e, k <= e < n -> b' !! e = Some zeroHash32 /\ r' !! e = Some TBReady.chanClosed)
      /\ (forall e, ~ (k <= e < n) -> b' !! e = b !! e /\ r' !! e = r !! e).
Proof.
  intros Hn Hgen. induction fuel as [|fuel IH]; intros k b r Hk Hfuel; [lia|].
  cbn [TBReady.initGenesisLoop]. rewrite Hgen by lia.
  destruct (Z.ltb_spec k n) as [Hlt|Hge].
  - unfold epoch_succ. rewrite wrap64_small by lia.
    destruct (IH (k + 1) (<[ k := zeroHash32 ]> b) (<[ k := TBReady.chanClosed ]> r))
      as (b' & r' & Hb' & Hin & Hout); [lia..|].
    exists b', r'. split; [done|]. split.
    + intros e He. destruct (decide (e = k)) as [->|Hne].
      * destruct (Hout k) as [-> ->]; [lia|]. by rewrite !lookup_insert_eq.
      * apply Hin. lia.
    + intros e He. destruct (Hout e) as [-> ->]; [lia|].
      rewrite !lookup_insert_ne by lia. done.
  - assert (k = n) as -> by lia. exists b, r. split; [done|]. split; [lia|done].
Qed.

(** C5, as the code has it. GetBeacon tests the epoch before the requested
    one: for every epoch whose predecessor is a genesis epoch (so for every
    genesis epoch but epoch 0) and that has no entry in the beacon DB,
    GetBeacon returns 32 zero bytes and no error without waiting and without
    changing the state; an entry of the DB is returned as it is. Start puts
    the all-zero beacon into the registry for every genesis epoch; in
    tortoisebeacon.go it also stores an already closed readiness channel for
    each of them and an open one for the first epoch after them. *)
Theorem genesis_beacons (D : Type) (HD : tortoiseBeaconDB D) (c : collaborators) (n : Z) :
  0 <= n < 2 ^ 64 ->
  (forall e, 0 <= e < 2 ^ 64 -> IsGenesis c e = (e <? n)) ->
  (forall (tb : TB.TortoiseBeacon D) (e : EpochID),
      TB.dbGet tb e = None -> IsGenesis c (epoch_sub e 1) = true ->
      TB.GetBeacon c tb e = (tb, Ok zeroHash32))
  /\ (forall (tb : TB.TortoiseBeacon D) (e : EpochID),
      0 < e < 2 ^ 64 -> IsGenesis c e = true -> TB.dbGet tb e = None ->
      TB.GetBeacon c tb e = (tb, Ok zeroHash32))
  /\ (forall (tb : TB.TortoiseBeacon D) (e : EpochID) (val : Hash32),
      TB.dbGet tb e = Some val -> TB.GetBeacon c tb e = (tb, Ok val))
  /\ length zeroHash32 = 32%nat
  /\ (forall (tb : TB.TortoiseBeacon D) (fuel : nat),
      n < Z.of_nat fuel ->
      exists tb', TB.initGenesisBeacons c fuel tb = Some tb'
        /\ forall e, 0 <= e < 2 ^ 64 -> IsGenesis c e = true ->
                     TB.beacons tb' !! e = Some zeroHash32)
  /\ (forall (tb : TBReady.TortoiseBeacon D) (fuel : nat),
      n < Z.of_nat fuel ->
      exists tb', TBReady.initGenesisBeacons c fuel tb = Some tb'
        /\ TBReady.beaconsReady tb' !! n = Some TBReady.chanOpen
        /\ forall e, 0 <= e < 2 ^ 64 -> IsGenesis c e = true ->
                     TBReady.beacons tb' !! e = Some zeroHash32
                     /\ TBReady.beaconsReady tb' !! e = Some TBReady.chanClosed).
Proof.
  intros Hn Hgen.
  assert (Hlt : forall e, 0 <= e < 2 ^ 64 -> IsGenesis c e = true -> e < n).
  { intros e He Hg. rewrite Hgen in Hg by done. by apply Z.ltb_lt. }
  split; [|split; [|split; [|split; [|split]]]].
  - intros tb e. apply GetBeacon_after_genesis.
  - intros tb e He Hg Hdb. apply GetBeacon_after_genesis; [done|].
    unfold epoch_sub. rewrite wrap64_small by lia.
    rewrite Hgen by lia. apply Z.ltb_lt. specialize (Hlt e ltac:(lia) Hg). lia.
  - intros tb e val. apply GetBeacon_from_DB.
  - reflexivity.
  - intros tb fuel Hfuel.
    destruct (initGenesisLoop_segment c n fuel Hn Hgen 0 (TB.beacons tb))
      as (b' & Hb' & Hin & _); [lia..|].
    unfold TB.initGenesisBeacons. rewrite Hb'. eexists. split; [done|].
    intros e He Hg. simpl. apply Hin. specialize (Hlt e He Hg). lia.
  - intros tb fuel Hfuel.
    destruct (initGenesisLoop_ready_segment c n fuel Hn Hgen 0
                (TBReady.beacons tb) (TBReady.beaconsReady tb))
      as (b' & r' & Hb' & Hin & _); [lia..|].
    unfold TBReady.initGenesisBeacons. rewrite Hb'. eexists. split; [done|].
    simpl. split; [apply lookup_insert_eq|].
    intros e He Hg. specialize (Hlt e He Hg).
    destruct (Hin e) as [H1 H2]; [lia|].
    split; [done|]. rewrite lookup_insert_ne by lia. done.
Qed.

Lemma genesis_beacons_witness :
  TB.GetBeacon mockCollaborators genesisNode 1 = (genesisNode, Ok zeroHash32).
Proof.
  assert (H2 : 0 <= 2 < 2 ^ 64) by (split; reflexivity || discriminate).
  assert (Hg : forall e, 0 <= e < 2 ^ 64 -> IsGenesis mockCollaborators e = (e <? 2))
    by reflexivity.
  apply (proj1 (genesis_beacons memDB _ mockCollaborators 2 H2 Hg)); reflexivity.
Defined.

(** Whatever the genesis epochs are, as long as epoch 0 is one of them and
    the last epoch of the range is not: GetBeacon(0) waits for the beacon of
    epoch 2^64-1. *)
Lemma GetBeacon_epoch_zero_waits (D : Type) (HD : tortoiseBeaconDB D)
    (c : collaborators) (tb : TB.TortoiseBeacon D) :
  IsGenesis c maxEpoch = false ->
  TB.dbGet tb 0 = None ->
  TB.beacons tb !! maxEpoch = None ->
  TB.slept (TB.GetBeacon c tb 0).1 = TB.slept tb + 50.
Proof.
  intros Hg Hdb Hb. unfold TB.GetBeacon. rewrite Hdb.
  change (epoch_sub 0 1) with maxEpoch. rewrite Hg.
  destruct (getBeaconLoop_absent 50 0 tb Hb) as (_ & H2 & _ & H4 & _).
  destruct (TB.getBeaconLoop 50 0 tb) as [tb1 beacon]. simpl in *.
  destruct (TB.tortoiseBeaconDB_ tb1) as [db|]; [|simpl; lia].
  destruct (SetTortoiseBeacon db 0 beacon) as [db' [err|]]; simpl; lia.
Qed.

(** C5 as it is written fails at the genesis epoch 0: the epoch before it is
    epoch 2^64-1, which is no genesis epoch and has no beacon, so GetBeacon
    sleeps fifty times one second before it returns the zero bytes. It also
    fails where the beacon DB holds an entry for a genesis epoch: the entry
    is what GetBeacon returns. *)
Lemma GetBeacon_genesis_epoch_zero_waits :
  IsGenesis mockCollaborators 0 = true
  /\ TB.initGenesisBeacons mockCollaborators 3 (newNode 3 None) = Some genesisNode
  /\ TB.dbGet genesisNode 0 = None
  /\ (TB.GetBeacon mockCollaborators genesisNode 0).2 = Ok zeroHash32
  /\ TB.slept (TB.GetBeacon mockCollaborators genesisNode 0).1 = TB.slept genesisNode + 50
  /\ TB.GetBeacon mockCollaborators genesisNode 0 <> (genesisNode, Ok zeroHash32)
  /\ IsGenesis mockCollaborators 1 = true
  /\ TB.GetBeacon mockCollaborators staleDBNode 1 = (staleDBNode, Ok s1_beacon)
  /\ s1_beacon <> zeroHash32.
Proof.
  repeat split; try reflexivity.
  - intros Heq. apply (f_equal (fun r => TB.slept r.1)) in Heq.
    vm_compute in Heq. discriminate.
  - intros Heq. vm_compute in Heq. discriminate.
Qed.



(** ** Waiting for a beacon (tortoisebeacon.go) *)

(** Wait itself gives up after [4 * RoundsNumber * roundDuration] when the
    epoch is pending and neither the readiness channel nor the node is
    closed in that time. *)
Lemma Wait_times_out (D : Type) (HD : tortoiseBeaconDB D)
    (tb : TBReady.TortoiseBeacon D) (e : EpochID) (f : TBReady.future) :
  TBReady.started tb = true -> TBReady.closed tb = false ->
  TBReady.dbGet tb e = None ->
  TBReady.beaconsReady tb !! e = Some TBReady.chanOpen ->
  TBReady.fires_within (TBReady.readyAt f) (TBReady.beaconCalcTimeout tb) = false ->
  TBReady.fires_within (TBReady.closeAt f) (TBReady.beaconCalcTimeout tb) = false ->
  TBReady.Wait tb e f
  = Some (Some ErrTimeout, 4 * TBReady.config_RoundsNumber tb * TBReady.roundDuration tb).
Proof.
  intros Hs Hc Hdb Hr Hf1 Hf2. unfold TBReady.Wait.
  rewrite Hs, Hc, Hdb, Hr. simpl. by rewrite Hf1, Hf2.
Qed.

(** C7, the code at a pending epoch. GetBeacon of tortoisebeacon.go returns
    the mock value built from the epoch number before it reaches Wait, for
    every state of the node; at epoch 5 of a node whose readiness channel
    stays open, Wait would end with ErrTimeout after 4 * 3 round durations,
    but GetBeacon returns the bytes 05 00 ... 00. GetBeacon of
    tortoise_beacon.go sleeps fifty seconds and returns the zero hash with a
    nil error. Neither returns a timeout failure. *)
Theorem GetBeacon_returns_a_value_for_a_pending_epoch :
  (forall (D : Type) (tb : TBReady.TortoiseBeacon D) (e : EpochID),
      (TBReady.GetBeacon tb e).2 = TBReady.mockBeacon e)
  /\ TBReady.Wait pendingNode 5 (TBReady.Future None None)
     = Some (Some ErrTimeout, 4 * 3 * 1000000000)
  /\ (TBReady.GetBeacon pendingNode 5).2 = 5 :: repeat 0 31
  /\ (TB.GetBeacon mockCollaborators (newNode 3 None) 5).2 = Ok zeroHash32
  /\ TB.slept (TB.GetBeacon mockCollaborators (newNode 3 None) 5).1 = 50.
Proof. repeat split. Qed.

(** ** Aborting an epoch (tortoise_beacon.go) *)

Lemma errors_Is_refl (e : error) : errors_Is e e.
Proof. destruct e; simpl; by left. Qed.

(** C8. For every non-genesis epoch, when the epoch weight lookup of the
    proposal phase fails, runProposalPhase returns an error that wraps the
    lookup error, and handleEpoch logs it and returns: whatever the consensus
    phase and the vote calculation would do, the state is the one before the
    epoch plus the log line; no beacon is recorded, no own votes, no
    proposal, nothing is broadcast. *)
Theorem weight_unavailable_aborts_epoch (D : Type) (HD : tortoiseBeaconDB D)
    (c : collaborators) (ph : TB.phases D) (tb : TB.TortoiseBeacon D)
    (epoch : EpochID) (err : error) :
  IsGenesis c epoch = false ->
  GetEpochWeight c epoch = Err err ->
  (exists e, TB.runProposalPhase c tb epoch = (tb, Err e)
             /\ (forall sig, TB.calcProposalSignature c epoch = Ok sig ->
                             e = ErrWrap "get epoch weight" err /\ errors_Is err e))
  /\ TB.handleEpoch c ph tb epoch = TB.log_line "Failed to send proposal" tb
  /\ TB.beacons (TB.handleEpoch c ph tb epoch) = TB.beacons tb
  /\ TB.ownVotes (TB.handleEpoch c ph tb epoch) = TB.ownVotes tb
  /\ TB.validProposals (TB.handleEpoch c ph tb epoch) = TB.validProposals tb
  /\ TB.net (TB.handleEpoch c ph tb epoch) = TB.net tb
  /\ TB.tortoiseBeaconDB_ (TB.handleEpoch c ph tb epoch) = TB.tortoiseBeaconDB_ tb.
Proof.
  intros Hg Hw.
  assert (Hrun : exists e, TB.runProposalPhase c tb epoch = (tb, Err e)
                   /\ (forall sig, TB.calcProposalSignature c epoch = Ok sig ->
                                   e = ErrWrap "get epoch weight" err /\ errors_Is err e)).
  { unfold TB.runProposalPhase.
    destruct (TB.calcProposalSignature c epoch) as [sig|e0].
    - rewrite Hw. eexists. split; [done|]. intros _ _. split; [done|].
      simpl. right. apply errors_Is_refl.
    - eexists. split; [done|]. intros sig [=]. }
  destruct Hrun as (e & Hrun & Hsig).
  assert (Hh : TB.handleEpoch c ph tb epoch = TB.log_line "Failed to send proposal" tb).
  { unfold TB.handleEpoch. by rewrite Hg, Hrun. }
  split; [eauto|]. rewrite Hh. by repeat split.
Qed.

Lemma weight_unavailable_aborts_epoch_witness :
  TB.handleEpoch weightlessCollaborators mockPhases s1_node 5
  = TB.log_line "Failed to send proposal" s1_node
  /\ TB.beacons (TB.handleEpoch weightlessCollaborators mockPhases s1_node 5) = ∅
  /\ TB.beacons (TB.handleEpoch mockCollaborators mockPhases s1_node 5) !! 5 = Some s1_beacon.
Proof.
  assert (Hg : IsGenesis weightlessCollaborators 5 = false) by reflexivity.
  assert (Hw : GetEpochWeight weightlessCollaborators 5 = Err (ErrExternal "no weight"))
    by reflexivity.
  pose proof (weight_unavailable_aborts_epoch memDB _ weightlessCollaborators mockPhases
                s1_node 5 _ Hg Hw) as (_ & Hh & Hb & _).
  split; [exact Hh|]. split; [exact Hb|]. reflexivity.
Defined.

(** ** The cleanup task *)

Lemma epoch_sub_cases (cur e : Z) :
  0 <= cur < 2 ^ 64 -> 0 <= e < 2 ^ 64 ->
  epoch_sub cur e = if e <=? cur then cur - e else cur - e + 2 ^ 64.
Proof.
  intros Hc He. unfold epoch_sub, wrap64, uint64_modulus.
  destruct (Z.leb_spec e cur).
  - apply Z.mod_small. lia.
  - rewrite <- (Z_mod_plus_full (cur - e) 1 (2 ^ 64)).
    apply Z.mod_small. lia.
Qed.

Lemma epochIsOutdated_iff (cur e : Z) :
  0 <= cur < 2 ^ 64 -> 0 <= e < 2 ^ 64 ->
  TB.epochIsOutdated cur e = true
  <-> e + cleanupEpochs < cur \/ (cur < e /\ e - cur < 2 ^ 64 - cleanupEpochs).
Proof.
  intros Hc He. unfold TB.epochIsOutdated, cleanupEpochs.
  rewrite (epoch_sub_cases cur e Hc He), Z.ltb_lt.
  destruct (Z.leb_spec e cur); lia.
Qed.

Lemma cleanup_lookup (D : Type) (cur e : Z) (tb : TB.TortoiseBeacon D) :
  TB.beacons (TB.cleanup cur tb) !! e
  = if TB.epochIsOutdated cur e then None else TB.beacons tb !! e.
Proof.
  unfold TB.cleanup. simpl.
  destruct (TB.epochIsOutdated cur e) eqn:Ho.
  - apply map_lookup_filter_None. right. intros x _. simpl. congruence.
  - destruct (TB.beacons tb !! e) as [h|] eqn:Hl.
    + by apply map_lookup_filter_Some.
    + apply map_lookup_filter_None. by left.
Qed.

(** C10, within the range where it holds. The difference is taken modulo
    2^64, so an epoch is outdated exactly when it is more than 1000 epochs
    behind the current one or ahead of it by fewer than 2^64 - 1000 epochs:
    every stored beacon of an epoch that is ahead of the current epoch by
    fewer than 2^64 - 1000 epochs is classified as outdated and deleted by
    the cleanup task, in tortoise_beacon.go and in tortoisebeacon.go. *)
Theorem future_epochs_are_outdated (cur e : EpochID) :
  0 <= cur < 2 ^ 64 -> 0 <= e < 2 ^ 64 ->
  cur < e -> e - cur < 2 ^ 64 - cleanupEpochs ->
  TB.epochIsOutdated cur e = true
  /\ (forall (D : Type) (tb : TB.TortoiseBeacon D),
        TB.beacons (TB.cleanup cur tb) !! e = None)
  /\ (forall (D : Type) (c : collaborators) (tb : TBReady.TortoiseBeacon D),
        LayerID_GetEpoch c (TBReady.lastLayer tb) = cur ->
        TBReady.epochIsOutdated c tb e = true
        /\ TBReady.beacons (TBReady.cleanup c tb) !! e = None)
  /\ (forall e', 0 <= e' < 2 ^ 64 ->
        (TB.epochIsOutdated cur e' = true
         <-> e' + cleanupEpochs < cur \/ (cur < e' /\ e' - cur < 2 ^ 64 - cleanupEpochs))).
Proof.
  intros Hc He Hlt Hfar.
  assert (Ho : TB.epochIsOutdated cur e = true).
  { apply epochIsOutdated_iff; [done..|]. right. lia. }
  split; [done|]. split; [|split].
  - intros D tb. by rewrite cleanup_lookup, Ho.
  - intros D c tb Hcur.
    assert (Ho' : TBReady.epochIsOutdated c tb e = true).
    { unfold TBReady.epochIsOutdated. rewrite Hcur. exact Ho. }
    split; [done|].
    unfold TBReady.cleanup. simpl.
    apply map_lookup_filter_None. right. intros h Hl. simpl.
    rewrite Ho', bool_decide_eq_true_2 by eauto. simpl. congruence.
  - intros e' He'. by apply epochIsOutdated_iff.
Qed.

Lemma future_epochs_are_outdated_witness :
  TB.epochIsOutdated 5 7 = true
  /\ TB.beacons (TB.cleanup 5 (TB.set_beacons {[ 7 := zeroHash32 ]} (newNode 3 None))) !! 7
     = None.
Proof.
  assert (H5 : 0 <= 5 < 2 ^ 64) by (split; reflexivity || discriminate).
  assert (H7 : 0 <= 7 < 2 ^ 64) by (split; reflexivity || discriminate).
  assert (Hlt : 5 < 7) by reflexivity.
  assert (Hfar : 7 - 5 < 2 ^ 64 - cleanupEpochs) by reflexivity.
  destruct (future_epochs_are_outdated 5 7 H5 H7 Hlt Hfar) as (Ho & Hcl & _).
  split; [exact Ho|]. apply Hcl.
Defined.

(** C10 as it is written fails at the far end of the range: seen from epoch
    0, epoch 2^64-1 is ahead, but the difference wraps around to 1 and the
    beacon is kept. *)
Lemma last_epoch_is_not_outdated :
  0 < maxEpoch
  /\ epoch_sub 0 maxEpoch = 1
  /\ TB.epochIsOutdated 0 maxEpoch = false
  /\ TB.beacons farFutureNode !! maxEpoch = Some zeroHash32
  /\ TB.beacons (TB.cleanup 0 farFutureNode) !! maxEpoch = Some zeroHash32.
Proof. repeat split. Qed.

(** ** The eligibility test (tortoise_beacon.go) *)


(* ===================================================================== *)
(** * More of the package *)
(* ===================================================================== *)

(** ** ceilDuration (tortoise_beacon.go) *)





(** ** The proposal phase (tortoise_beacon.go) *)

Section ProposalPhase.
Context {D : Type} `{!tortoiseBeaconDB D}.
Variable c : collaborators.

Lemma sendToGossip_outcome (tb : TB.TortoiseBeacon D) (ch : string) (m : message) :
  (exists payload,
      InterfaceToBytes c m = Ok payload /\ Broadcast c ch payload = None
      /\ TB.sendToGossip c tb ch m = (TB.net_push ch payload tb, Ok tt))
  \/ (exists err, TB.sendToGossip c tb ch m = (tb, Err err)).
Proof.
  unfold TB.sendToGossip.
  destruct (InterfaceToBytes c m) as [payload|err]; [|right; eauto].
  destruct (Broadcast c ch payload) as [err|] eqn:Hb; [right; eauto|left; eauto].
Qed.

Lemma runProposalPhase_outcome (tb : TB.TortoiseBeacon D) (epoch : EpochID) :
  (exists res, TB.runProposalPhase c tb epoch = (tb, res))
  \/ (exists sig payload,
        TB.calcProposalSignature c epoch = Ok sig
        /\ InterfaceToBytes c (ProposalMessage (TB.minerID tb) sig) = Ok payload
        /\ Broadcast c TBProposalProtocol payload = None
        /\ TB.runProposalPhase c tb epoch
           = (TB.set_validProposals
                (<[ epoch := {[ Bytes2Hex c sig ]} ∪ default ∅ (TB.validProposals tb !! epoch) ]>
                   (TB.validProposals tb))
                (TB.net_push TBProposalProtocol payload tb), Ok tt)).
Proof.
  unfold TB.runProposalPhase.
  destruct (TB.calcProposalSignature c epoch) as [sig|err]; [|left; eauto].
  destruct (GetEpochWeight c epoch) as [w|err]; [|left; eauto].
  destruct (TB.proposalPassesEligibilityThreshold c sig w) as [[|]|err];
    [|left; eauto..].
  destruct (sendToGossip_outcome tb TBProposalProtocol
              (ProposalMessage (TB.minerID tb) sig))
    as [(payload & Hs & Hb & ->)|(err & ->)]; [|left; eauto].
  right. exists sig, payload. by repeat split.
Qed.

Lemma runProposalPhase_error (tb : TB.TortoiseBeacon D) (epoch : EpochID) (err : error) :
  (TB.runProposalPhase c tb epoch).2 = Err err -> (TB.runProposalPhase c tb epoch).1 = tb.
Proof.
  destruct (runProposalPhase_outcome tb epoch) as [(res & ->)|(sig & payload & _ & _ & _ & ->)];
    [done|discriminate].
Qed.

End ProposalPhase.

(** X2. runProposalPhase returns an error only with the state it was given;
    it adds a proposal to the node's valid proposals only together with a
    broadcast of the proposal message on the TBProposal channel, under the
    hex text of the signature; it never removes a valid proposal of any
    epoch and never touches the beacons or the own votes. *)
Theorem runProposalPhase_registers_only_what_it_sent
    (D : Type) (HD : tortoiseBeaconDB D) (c : collaborators)
    (tb : TB.TortoiseBeacon D) (epoch : EpochID) :
  let r := TB.runProposalPhase c tb epoch in
  (forall err, r.2 = Err err -> r.1 = tb)
  /\ (TB.validProposals r.1 <> TB.validProposals tb ->
      exists sig payload,
        TB.calcProposalSignature c epoch = Ok sig
        /\ InterfaceToBytes c (ProposalMessage (TB.minerID tb) sig) = Ok payload
        /\ Broadcast c TBProposalProtocol payload = None
        /\ TB.net r.1 = TB.net tb ++ [(TBProposalProtocol, payload)]
        /\ Bytes2Hex c sig ∈ default ∅ (TB.validProposals r.1 !! epoch))
  /\ (forall e p, p ∈ default ∅ (TB.validProposals tb !! e) ->
                  p ∈ default ∅ (TB.validProposals r.1 !! e))
  /\ TB.beacons r.1 = TB.beacons tb
  /\ TB.ownVotes r.1 = TB.ownVotes tb.
Proof.
  intros r. subst r. split; [apply runProposalPhase_error|].
  destruct (runProposalPhase_outcome c tb epoch)
    as [(res & ->)|(sig & payload & Hsig & Hp & Hb & ->)]; simpl.
  - repeat split; done.
  - split; [|split; [|done]].
    + intros _. exists sig, payload. repeat split; try done.
      rewrite lookup_insert_eq. simpl. set_solver.
    + intros e p Hin. destruct (decide (e = epoch)) as [->|Hne].
      * rewrite lookup_insert_eq. simpl. set_solver.
      * by rewrite lookup_insert_ne.
Qed.

Lemma runProposalPhase_registers_only_what_it_sent_witness :
  let r := TB.runProposalPhase eagerCollaborators (newNode 3 None) 5 in
  exists sig payload,
    TB.calcProposalSignature eagerCollaborators 5 = Ok sig
    /\ InterfaceToBytes eagerCollaborators (ProposalMessage "miner" sig) = Ok payload
    /\ Broadcast eagerCollaborators TBProposalProtocol payload = None
    /\ TB.net r.1 = [(TBProposalProtocol, payload)]
    /\ Bytes2Hex eagerCollaborators sig ∈ default ∅ (TB.validProposals r.1 !! 5).
Proof.
  apply (proj1 (proj2 (runProposalPhase_registers_only_what_it_sent
                         memDB _ eagerCollaborators (newNode 3 None) 5))).
  vm_compute. discriminate.
Defined.



(** ** Epochs and beacons (tortoise_beacon.go, beacon_calc.go) *)



(** X5. Once the hash list is known, calcBeacon records the beacon whether
    or not it can be announced: the beacons are those of the state the hash
    list left, with the epoch set to the digest; on success exactly one
    message went out, on TBBeaconSync, and it is the signed message that
    carries this epoch and this digest; on failure the error is wrapped as
    a sync failure and nothing went out. *)
Theorem calcBeacon_records_then_announces
    (D : Type) (HD : tortoiseBeaconDB D) (c : collaborators) (ph : TB.phases D)
    (tb tb1 : TB.TortoiseBeacon D) (epoch : EpochID) (hashes : proposalList) :
  TB.calcTortoiseBeaconHashList c ph tb epoch = (tb1, Ok hashes) ->
  let r := TB.calcBeacon c ph tb epoch in
  let beacon := proposalList_Hash hashes in
  TB.beacons r.1 = <[ epoch := beacon ]> (TB.beacons tb1)
  /\ ((r.2 = Ok tt
       /\ exists sig payload,
            TB.calcEligibilityProof c (BeaconSyncMessageBody (TB.minerID tb1) epoch beacon)
            = Ok sig
            /\ InterfaceToBytes c (BeaconSyncMessage (TB.minerID tb1) epoch beacon sig)
               = Ok payload
            /\ TB.net r.1 = TB.net tb1 ++ [(TBBeaconSyncProtocol, payload)])
      \/ (exists err, r.2 = Err (ErrWrap "sync beacon" err) /\ TB.net r.1 = TB.net tb1)).
Proof.
  intros Hl r beacon. subst r. unfold TB.calcBeacon. rewrite Hl. fold beacon.
  unfold TB.syncBeacon. simpl.
  destruct (TB.calcEligibilityProof c _) as [sig|err]; simpl; [|split; [done|right; eauto]].
  destruct (sendToGossip_outcome c
              (TB.set_beacons (<[ epoch := beacon ]> (TB.beacons tb1)) tb1)
              TBBeaconSyncProtocol (BeaconSyncMessage (TB.minerID tb1) epoch beacon sig))
    as [(payload & Hs & Hb & ->)|(err & ->)]; simpl.
  - split; [done|]. left. split; [done|]. by exists sig, payload.
  - split; [done|]. right. eauto.
Qed.

Lemma calcBeacon_records_then_announces_witness :
  let r := TB.calcBeacon offlineCollaborators mockPhases s1_node 5 in
  let beacon := proposalList_Hash ["0x1"; "0x2"; "0x4"; "0x5"]%string in
  TB.beacons r.1 = <[ 5 := beacon ]> (TB.beacons s1_node)
  /\ ((r.2 = Ok tt
       /\ exists sig payload,
            TB.calcEligibilityProof offlineCollaborators
              (BeaconSyncMessageBody (TB.minerID s1_node) 5 beacon) = Ok sig
            /\ InterfaceToBytes offlineCollaborators
                 (BeaconSyncMessage (TB.minerID s1_node) 5 beacon sig) = Ok payload
            /\ TB.net r.1 = TB.net s1_node ++ [(TBBeaconSyncProtocol, payload)])
      \/ (exists err, r.2 = Err (ErrWrap "sync beacon" err) /\ TB.net r.1 = TB.net s1_node)).
Proof.
  apply (calcBeacon_records_then_announces memDB _ offlineCollaborators mockPhases
           s1_node s1_node 5).
  reflexivity.
Defined.

(** X6. The last-round votes are cached: after calcTortoiseBeaconHashList
    has returned a list, a second call on the state it left returns the same
    list and the same state, without calling calcVotes again (whatever
    calcVotes would do then) and in whatever order the map is ranged over,
    as long as calcVotes leaves the number of rounds alone. *)
Theorem calcTortoiseBeaconHashList_second_call
    (D : Type) (HD : tortoiseBeaconDB D) (c c2 : collaborators) (ph ph2 : TB.phases D)
    (tb tb1 : TB.TortoiseBeacon D) (epoch : EpochID) (hashes : proposalList) :
  mapOrder_ok c -> mapOrder_ok c2 ->
  (forall t e r, TB.config_RoundsNumber (TB.calcVotes ph t e r).1 = TB.config_RoundsNumber t) ->
  TB.calcTortoiseBeaconHashList c ph tb epoch = (tb1, Ok hashes) ->
  TB.calcTortoiseBeaconHashList c2 ph2 tb1 epoch = (tb1, Ok hashes).
Proof.
  intros Ho Ho2 Hk Hl.
  assert (Hr : TB.lastPossibleRound tb1 = TB.lastPossibleRound tb).
  { revert Hl. unfold TB.calcTortoiseBeaconHashList, TB.lastPossibleRound. cbv zeta.
    destruct (TB.ownVotes tb !! _) as [v|]; simpl; [by intros [= <- _]|].
    specialize (Hk tb epoch (TB.config_RoundsNumber tb)).
    destruct (TB.calcVotes ph tb epoch _) as [t [v|e]]; simpl in *; [|done].
    by intros [= <- _]. }
  destruct (hashList_result c ph Ho _ _ _ _ Hl) as (votes & Hv & ->).
  rewrite <- Hr in Hv.
  by rewrite (hashList_cached c2 ph2 Ho2 tb1 epoch votes Hv).
Qed.

Lemma calcTortoiseBeaconHashList_second_call_witness :
  TB.calcTortoiseBeaconHashList mockCollaborators brokenConsensus s1_node 5
  = (s1_node, Ok ["0x1"; "0x2"; "0x4"; "0x5"]%string).
Proof.
  assert (Hm : mapOrder_ok mockCollaborators) by (intros s; reflexivity).
  apply (calcTortoiseBeaconHashList_second_call memDB _ mockCollaborators mockCollaborators
           mockPhases brokenConsensus s1_node s1_node 5 _ Hm Hm);
    [intros t e r; reflexivity|reflexivity].
Defined.

Section GetBeaconMore.
Context {D : Type} `{!tortoiseBeaconDB D}.
Variable c : collaborators.

Lemma GetBeacon_found (tb : TB.TortoiseBeacon D) (e : EpochID) (b : Hash32) :
  TB.dbGet tb e = None ->
  IsGenesis c (epoch_sub e 1) = false ->
  TB.beacons tb !! epoch_sub e 1 = Some b ->
  let tb2 := TB.log_line "beacon not calculated after all attempts" tb in
  TB.GetBeacon c tb e
  = match TB.tortoiseBeaconDB_ tb with
    | Some db =>
        match SetTortoiseBeacon db e b with
        | (db', Some err) => (TB.set_db (Some db') tb2, Err (ErrWrap "update beacon in DB" err))
        | (db', None) => (TB.set_db (Some db') tb2, Ok b)
        end
    | None => (tb2, Ok b)
    end.
Proof.
  intros Hdb Hg Hb. unfold TB.GetBeacon.
  by rewrite Hdb, Hg, (getBeaconLoop_present 49 e tb b Hb).
Qed.

Lemma GetBeacon_missing (tb : TB.TortoiseBeacon D) (e : EpochID) :
  TB.dbGet tb e = None ->
  IsGenesis c (epoch_sub e 1) = false ->
  TB.beacons tb !! epoch_sub e 1 = None ->
  exists tb2,
    TB.slept tb2 = TB.slept tb + 50
    /\ TB.beacons tb2 = TB.beacons tb
    /\ TB.tortoiseBeaconDB_ tb2 = TB.tortoiseBeaconDB_ tb
    /\ TB.GetBeacon c tb e
       = match TB.tortoiseBeaconDB_ tb with
         | Some db =>
             match SetTortoiseBeacon db e zeroHash32 with
             | (db', Some err) =>
                 (TB.set_db (Some db') tb2, Err (ErrWrap "update beacon in DB" err))
             | (db', None) => (TB.set_db (Some db') tb2, Ok zeroHash32)
             end
         | None => (tb2, Ok zeroHash32)
         end.
Proof.
  intros Hdb Hg Hb. unfold TB.GetBeacon. rewrite Hdb, Hg.
  destruct (getBeaconLoop_absent 50 e tb Hb) as (H1 & H2 & H3 & H4 & _).
  destruct (TB.getBeaconLoop 50 e tb) as [tb1 beacon]. simpl in *. subst beacon.
  exists (TB.log_line "beacon not calculated after all attempts" tb1).
  simpl. rewrite H4. repeat split; (lia || done).
Qed.

End GetBeaconMore.

Lemma epoch_sub_succ (e : EpochID) : 0 <= e < 2 ^ 64 -> epoch_sub (epoch_succ e) 1 = e.
Proof.
  intros He. unfold epoch_sub, epoch_succ, wrap64, uint64_modulus.
  rewrite Zminus_mod_idemp_l. replace (e + 1 - 1) with e by lia.
  apply Z.mod_small. lia.
Qed.

(** X7. The beacon calcBeacon records for an epoch is the one GetBeacon
    serves for the epoch after it: on a node without a beacon DB, GetBeacon
    of the next epoch returns the digest of the hash list at once, without
    sleeping; the line "beacon not calculated after all attempts" is logged
    all the same. *)
Theorem calcBeacon_then_GetBeacon
    (D : Type) (HD : tortoiseBeaconDB D) (c : collaborators) (ph : TB.phases D)
    (tb tb1 : TB.TortoiseBeacon D) (epoch : EpochID) (hashes : proposalList) :
  0 <= epoch < 2 ^ 64 ->
  IsGenesis c epoch = false ->
  TB.calcTortoiseBeaconHashList c ph tb epoch = (tb1, Ok hashes) ->
  TB.tortoiseBeaconDB_ (TB.calcBeacon c ph tb epoch).1 = None ->
  TB.GetBeacon c (TB.calcBeacon c ph tb epoch).1 (epoch_succ epoch)
  = (TB.log_line "beacon not calculated after all attempts" (TB.calcBeacon c ph tb epoch).1,
     Ok (proposalList_Hash hashes)).
Proof.
  intros He Hg Hl Hdb.
  pose proof (calcBeacon_stores c ph _ _ _ _ Hl) as Hs.
  set (tb' := (TB.calcBeacon c ph tb epoch).1) in *.
  rewrite (GetBeacon_found c tb' (epoch_succ epoch) (proposalList_Hash hashes)).
  - by rewrite Hdb.
  - unfold TB.dbGet. by rewrite Hdb.
  - by rewrite epoch_sub_succ.
  - by rewrite epoch_sub_succ.
Qed.

Lemma calcBeacon_then_GetBeacon_witness :
  TB.GetBeacon mockCollaborators (TB.calcBeacon mockCollaborators mockPhases s1_node 5).1
    (epoch_succ 5)
  = (TB.log_line "beacon not calculated after all attempts"
       (TB.calcBeacon mockCollaborators mockPhases s1_node 5).1,
     Ok (proposalList_Hash ["0x1"; "0x2"; "0x4"; "0x5"]%string)).
Proof.
  assert (He : 0 <= 5 < 2 ^ 64) by (split; [discriminate|reflexivity]).
  apply (calcBeacon_then_GetBeacon memDB _ mockCollaborators mockPhases
           s1_node s1_node 5 _ He); reflexivity.
Defined.

(** ** The beacon DB (db.go) *)

Lemma BytesToHash_id (h : Hash32) : length h = HashLength -> BytesToHash h = h.
Proof.
  intros Hlen. unfold BytesToHash. rewrite Hlen, Nat.sub_diag, drop_0, Hlen, Nat.sub_diag.
  done.
Qed.

Lemma be_word_snoc (l : list Z) (b : Z) : SHA256.be_word (l ++ [b]) = SHA256.be_word l * 256 + b.
Proof. unfold SHA256.be_word. by rewrite fold_left_app. Qed.

Lemma be_word_be_bytes (n : nat) :
  forall x : Z, SHA256.be_word (SHA256.be_bytes n x) = x mod 256 ^ Z.of_nat n.
Proof.
  induction n as [|n IH]; intros x.
  - simpl. by rewrite Z.mod_1_r.
  - cbn [SHA256.be_bytes]. rewrite be_word_snoc, IH.
    rewrite Nat2Z.inj_succ, Z.pow_succ_r by lia.
    rewrite (Z.rem_mul_r x 256 (256 ^ Z.of_nat n)) by lia. lia.
Qed.

Lemma DB_Set_then_Get (S : Type) (HS : Database S) (db db' : DBFile.DB S)
    (e : EpochID) (h : Hash32) :
  store_lawful S ->
  DBFile.DB_SetTortoiseBeacon db e h = (db', None) ->
  length h = HashLength ->
  DBFile.DB_GetTortoiseBeacon db' e = Some h.
Proof.
  intros Hlaw Hset Hlen. unfold DBFile.DB_SetTortoiseBeacon in Hset.
  destruct (store_Put (DBFile.store db) (EpochID_ToBytes e) h) as [st [err|]] eqn:Hput;
    [done|]. injection Hset as <-.
  destruct (Hlaw _ _ _ _ Hput) as [Hget _].
  unfold DBFile.DB_GetTortoiseBeacon. simpl. rewrite Hget. by rewrite BytesToHash_id.
Qed.

Lemma memStore_lawful : store_lawful (gmap bytes bytes).
Proof.
  intros st st' k v [= <-]. simpl. split.
  - by rewrite lookup_insert_eq.
  - intros k' Hne. by rewrite lookup_insert_ne.
Qed.

Lemma memDB_keeps_beacons : db_keeps_beacons memDB.
Proof.
  intros db db' e h Hset Hlen.
  exact (DB_Set_then_Get _ _ db db' e h memStore_lawful Hset Hlen).
Qed.

(** X8. Over a key-value store that keeps what is put into it, the beacon
    DB returns the 32-byte beacon it has accepted for an epoch and answers
    for every epoch stored under another key as before; a beacon whose Put
    failed is reported with the wrapped error, and an epoch the store has no
    entry for (any Get error) is reported as absent. *)
Theorem DB_Set_Get_round_trip (S : Type) (HS : Database S) (db : DBFile.DB S)
    (e : EpochID) (h : Hash32) :
  store_lawful S ->
  length h = HashLength ->
  match DBFile.DB_SetTortoiseBeacon db e h with
  | (db', None) =>
      DBFile.DB_GetTortoiseBeacon db' e = Some h
      /\ forall e', EpochID_ToBytes e' <> EpochID_ToBytes e ->
           DBFile.DB_GetTortoiseBeacon db' e' = DBFile.DB_GetTortoiseBeacon db e'
  | (db', Some err) =>
      exists cause, err = ErrWrap "failed to add tortoise beacon" cause
                    /\ store_Put (DBFile.store db) (EpochID_ToBytes e) h
                       = (DBFile.store db', Some cause)
  end
  /\ forall e' err, store_Get (DBFile.store db) (EpochID_ToBytes e') = Err err ->
       DBFile.DB_GetTortoiseBeacon db e' = None.
Proof.
  intros Hlaw Hlen. split.
  - destruct (DBFile.DB_SetTortoiseBeacon db e h) as [db' [err|]] eqn:Hset.
    + unfold DBFile.DB_SetTortoiseBeacon in Hset.
      destruct (store_Put (DBFile.store db) (EpochID_ToBytes e) h) as [st [cause|]];
        [|done]. injection Hset as <- <-. by exists cause.
    + split; [by apply (DB_Set_then_Get S HS db)|].
      intros e' Hne. unfold DBFile.DB_SetTortoiseBeacon in Hset.
      destruct (store_Put (DBFile.store db) (EpochID_ToBytes e) h) as [st [cause|]] eqn:Hput;
        [done|]. injection Hset as <-.
      destruct (Hlaw _ _ _ _ Hput) as [_ Hother].
      unfold DBFile.DB_GetTortoiseBeacon. simpl. by rewrite Hother.
  - intros e' err Hget. unfold DBFile.DB_GetTortoiseBeacon. by rewrite Hget.
Qed.

Lemma DB_Set_Get_round_trip_witness :
  DBFile.DB_GetTortoiseBeacon
    (DBFile.DB_SetTortoiseBeacon (DBFile.NewDB (∅ : gmap bytes bytes)) 7 s1_beacon).1 7
  = Some s1_beacon.
Proof.
  assert (Hlen : length s1_beacon = HashLength) by reflexivity.
  exact (proj1 (proj1 (DB_Set_Get_round_trip (gmap bytes bytes) _ (DBFile.NewDB ∅) 7
                         s1_beacon memStore_lawful Hlen))).
Defined.

(** ** GetBeacon (tortoise_beacon.go) *)

(** X9. GetBeacon never changes the recorded beacons, and it sleeps all or
    nothing: either it returns without sleeping, or it has slept the full
    fifty seconds and the only beacon it can return is the all-zero hash.
    It fails only when the beacon DB refuses the write, with that error
    wrapped; without a beacon DB it always returns a beacon. *)
Theorem GetBeacon_sleeps_all_or_nothing
    (D : Type) (HD : tortoiseBeaconDB D) (c : collaborators)
    (tb : TB.TortoiseBeacon D) (e : EpochID) :
  let r := TB.GetBeacon c tb e in
  TB.beacons r.1 = TB.beacons tb
  /\ (TB.slept r.1 = TB.slept tb
      \/ (TB.slept r.1 = TB.slept tb + 50
          /\ TB.beacons tb !! epoch_sub e 1 = None
          /\ forall b, r.2 = Ok b -> b = zeroHash32))
  /\ (forall err, r.2 = Err err ->
        exists db db' b cause,
          TB.tortoiseBeaconDB_ tb = Some db
          /\ SetTortoiseBeacon db e b = (db', Some cause)
          /\ err = ErrWrap "update beacon in DB" cause)
  /\ (TB.tortoiseBeaconDB_ tb = None -> exists b, r.2 = Ok b).
Proof.
  intros r. subst r.
  destruct (TB.dbGet tb e) as [val|] eqn:Hdb.
  { rewrite (GetBeacon_from_DB c tb e val Hdb). simpl.
    split; [done|]. split; [by left|]. split; [done|]. eauto. }
  destruct (IsGenesis c (epoch_sub e 1)) eqn:Hg.
  { rewrite (GetBeacon_after_genesis c tb e Hdb Hg). simpl.
    split; [done|]. split; [by left|]. split; [done|]. eauto. }
  destruct (TB.beacons tb !! epoch_sub e 1) as [b|] eqn:Hb.
  - rewrite (GetBeacon_found c tb e b Hdb Hg Hb).
    destruct (TB.tortoiseBeaconDB_ tb) as [db|] eqn:Hd.
    + destruct (SetTortoiseBeacon db e b) as [db' [cause|]] eqn:Hset; simpl.
      * split; [done|]. split; [by left|]. split; [|done].
        intros err [= <-]. by exists db, db', b, cause.
      * split; [done|]. split; [by left|]. split; [done|done].
    + simpl. split; [done|]. split; [by left|]. split; [done|]. eauto.
  - destruct (GetBeacon_missing c tb e Hdb Hg Hb) as (tb2 & Hs & Hbs & _ & ->).
    destruct (TB.tortoiseBeaconDB_ tb) as [db|] eqn:Hd.
    + destruct (SetTortoiseBeacon db e zeroHash32) as [db' [cause|]] eqn:Hset; simpl.
      * split; [done|]. split; [right; by repeat split|]. split; [|done].
        intros err [= <-]. by exists db, db', zeroHash32, cause.
      * split; [done|]. split; [right; repeat split; [done|congruence]|]. split; [done|done].
    + simpl. split; [done|]. split; [right; repeat split; [done|congruence]|].
      split; [done|]. eauto.
Qed.

Lemma GetBeacon_sleeps_all_or_nothing_witness :
  exists b, (TB.GetBeacon mockCollaborators farFutureNode 5).2 = Ok b.
Proof.
  apply (proj2 (proj2 (proj2 (GetBeacon_sleeps_all_or_nothing memDB _ mockCollaborators
                                farFutureNode 5)))).
  reflexivity.
Defined.

(** X10. The all-zero beacon GetBeacon falls back to is written to the
    beacon DB and stays: over a DB that returns what it has accepted, once
    GetBeacon has given up on an epoch, every later call for that epoch
    returns the all-zero hash from the DB at once, whatever beacons have
    been recorded in memory in the meantime. *)
Theorem GetBeacon_fallback_is_persisted
    (D : Type) (HD : tortoiseBeaconDB D) (c : collaborators)
    (tb : TB.TortoiseBeacon D) (e : EpochID) (db db' : D) :
  db_keeps_beacons D ->
  TB.tortoiseBeaconDB_ tb = Some db ->
  GetTortoiseBeacon db e = None ->
  IsGenesis c (epoch_sub e 1) = false ->
  TB.beacons tb !! epoch_sub e 1 = None ->
  SetTortoiseBeacon db e zeroHash32 = (db', None) ->
  let r := TB.GetBeacon c tb e in
  r.2 = Ok zeroHash32
  /\ TB.slept r.1 = TB.slept tb + 50
  /\ forall later : gmap EpochID Hash32,
       TB.GetBeacon c (TB.set_beacons later r.1) e = (TB.set_beacons later r.1, Ok zeroHash32).
Proof.
  intros Hkeep Hd Hget Hg Hb Hset r. subst r.
  assert (Hdb : TB.dbGet tb e = None) by (unfold TB.dbGet; by rewrite Hd).
  destruct (GetBeacon_missing c tb e Hdb Hg Hb) as (tb2 & Hs & _ & _ & ->).
  rewrite Hd, Hset. simpl. split; [done|]. split; [done|].
  intros later. apply GetBeacon_from_DB. unfold TB.dbGet. simpl.
  by apply (Hkeep db db').
Qed.

Lemma GetBeacon_fallback_is_persisted_witness :
  let r := TB.GetBeacon mockCollaborators dbNode 5 in
  r.2 = Ok zeroHash32
  /\ TB.slept r.1 = TB.slept dbNode + 50
  /\ forall later : gmap EpochID Hash32,
       TB.GetBeacon mockCollaborators (TB.set_beacons later r.1) 5
       = (TB.set_beacons later r.1, Ok zeroHash32).
Proof.
  apply (GetBeacon_fallback_is_persisted memDB _ mockCollaborators dbNode 5
           (DBFile.NewDB ∅) (DBFile.NewDB {[ EpochID_ToBytes 5 := zeroHash32 ]})
           memDB_keeps_beacons); reflexivity.
Defined.

(** ** The cleanup task (tortoise_beacon.go) *)

(** X11. What the cleanup task keeps: of the recorded beacons exactly those
    of the epochs from [currentEpoch - 1000] to [currentEpoch], and, because
    the difference is taken modulo 2^64, those of the last epochs of the
    64-bit range while the current epoch is below 1000; every surviving
    beacon is unchanged, nothing but the beacons is touched, and a second
    run at the same epoch removes nothing more. *)
Theorem cleanup_keeps_the_window (D : Type) (cur : EpochID) (tb : TB.TortoiseBeacon D) :
  0 <= cur < 2 ^ 64 ->
  (forall e h, TB.beacons tb !! e = Some h -> 0 <= e < 2 ^ 64) ->
  (forall e h,
      TB.beacons (TB.cleanup cur tb) !! e = Some h
      <-> TB.beacons tb !! e = Some h
          /\ (cur - cleanupEpochs <= e <= cur \/ 2 ^ 64 - cleanupEpochs + cur <= e))
  /\ TB.cleanup cur (TB.cleanup cur tb) = TB.cleanup cur tb
  /\ TB.ownVotes (TB.cleanup cur tb) = TB.ownVotes tb
  /\ TB.validProposals (TB.cleanup cur tb) = TB.validProposals tb
  /\ TB.tortoiseBeaconDB_ (TB.cleanup cur tb) = TB.tortoiseBeaconDB_ tb.
Proof.
  intros Hc Hrange. split; [|split; [|done]].
  - intros e h. rewrite cleanup_lookup.
    destruct (TB.epochIsOutdated cur e) eqn:Ho.
    + split; [done|]. intros [Hl Hw]. exfalso.
      pose proof (Hrange e h Hl) as He.
      apply (epochIsOutdated_iff cur e Hc He) in Ho. unfold cleanupEpochs in *. lia.
    + split; [|by intros [? _]]. intros Hl. split; [done|].
      pose proof (Hrange e h Hl) as He.
      assert (Hn : ~ (e + cleanupEpochs < cur \/ (cur < e /\ e - cur < 2 ^ 64 - cleanupEpochs))).
      { intros Hout. apply (epochIsOutdated_iff cur e Hc He) in Hout. congruence. }
      unfold cleanupEpochs in *. lia.
  - assert (Hb : TB.beacons (TB.cleanup cur (TB.cleanup cur tb))
                 = TB.beacons (TB.cleanup cur tb)).
    { apply map_eq. intros e. rewrite !cleanup_lookup.
      by destruct (TB.epochIsOutdated cur e). }
    unfold TB.cleanup, TB.set_beacons in *. simpl in *. by f_equal.
Qed.

Lemma cleanup_keeps_the_window_witness :
  TB.beacons (TB.cleanup 5 farFutureNode) !! maxEpoch = Some zeroHash32.
Proof.
  assert (Hc : 0 <= 5 < 2 ^ 64) by (split; [discriminate|reflexivity]).
  assert (Hrange : forall e h, TB.beacons farFutureNode !! e = Some h -> 0 <= e < 2 ^ 64).
  { intros e h Hl. unfold farFutureNode, TB.set_beacons in Hl. cbn [TB.beacons] in Hl.
    apply lookup_singleton_Some in Hl as [<- _].
    split; [discriminate|reflexivity]. }
  apply (proj1 (cleanup_keeps_the_window memDB 5 farFutureNode Hc Hrange)).
  split; [reflexivity|]. right. unfold maxEpoch, cleanupEpochs. lia.
Defined.

(** ** Announcing a beacon (beacon_calc.go) *)

(** X12. syncPrevBeacon sends what syncBeacon sends, on the TBBeaconSyncPrev
    channel instead of TBBeaconSync: over a broadcaster that treats the two
    channels alike both return the same result and hand over the same
    payloads, at most one, and neither touches the recorded beacons. *)
Theorem syncPrevBeacon_same_message
    (D : Type) (HD : tortoiseBeaconDB D) (c : collaborators)
    (tb : TB.TortoiseBeacon D) (epoch : EpochID) (beacon : Hash32) :
  (forall payload,
      Broadcast c TBBeaconSyncPrevProtocol payload = Broadcast c TBBeaconSyncProtocol payload) ->
  let r := TB.syncBeacon c tb epoch beacon in
  let r' := TBSync.syncPrevBeacon c tb epoch beacon in
  r'.2 = r.2
  /\ TB.beacons r'.1 = TB.beacons tb
  /\ exists payloads : list bytes,
       (length payloads <= 1)%nat
       /\ TB.net r.1 = TB.net tb ++ map (pair TBBeaconSyncProtocol) payloads
       /\ TB.net r'.1 = TB.net tb ++ map (pair TBBeaconSyncPrevProtocol) payloads.
Proof.
  intros Hnet r r'. subst r r'. unfold TB.syncBeacon, TBSync.syncPrevBeacon.
  assert (Hnone : forall l : list (string * bytes),
             exists payloads : list bytes,
               (length payloads <= 1)%nat
               /\ l = l ++ map (pair TBBeaconSyncProtocol) payloads
               /\ l = l ++ map (pair TBBeaconSyncPrevProtocol) payloads).
  { intros l. exists []. simpl. rewrite app_nil_r. repeat split. lia. }
  destruct (TB.calcEligibilityProof c _) as [sig|err]; simpl; [|by repeat split].
  unfold TB.sendToGossip.
  destruct (InterfaceToBytes c _) as [payload|err]; simpl; [|by repeat split].
  rewrite Hnet.
  destruct (Broadcast c TBBeaconSyncProtocol payload) as [err|]; simpl; [by repeat split|].
  split; [done|]. split; [done|]. exists [payload]. simpl. repeat split. lia.
Qed.

Lemma syncPrevBeacon_same_message_witness :
  (TBSync.syncPrevBeacon mockCollaborators s1_node 5 s1_beacon).2
  = (TB.syncBeacon mockCollaborators s1_node 5 s1_beacon).2
  /\ TB.net (TBSync.syncPrevBeacon mockCollaborators s1_node 5 s1_beacon).1
     = [(TBBeaconSyncPrevProtocol, [])].
Proof.
  assert (Hnet : forall payload,
             Broadcast mockCollaborators TBBeaconSyncPrevProtocol payload
             = Broadcast mockCollaborators TBBeaconSyncProtocol payload) by reflexivity.
  split.
  - exact (proj1 (syncPrevBeacon_same_message memDB _ mockCollaborators s1_node 5 s1_beacon
                    Hnet)).
  - reflexivity.
Defined.

(** ** Get, Wait and the cleanup task of tortoisebeacon.go *)

Section ReadyFacts.
Context {D : Type} `{!tortoiseBeaconDB D}.

Lemma Ready_cleanup_lookup (c : collaborators) (tb : TBReady.TortoiseBeacon D) (e : EpochID) :
  let gone := bool_decide (is_Some (TBReady.beacons tb !! e)) && TBReady.epochIsOutdated c tb e in
  TBReady.beacons (TBReady.cleanup c tb) !! e
  = (if gone then None else TBReady.beacons tb !! e)
  /\ TBReady.beaconsReady (TBReady.cleanup c tb) !! e
     = (if gone then None else TBReady.beaconsReady tb !! e).
Proof.
  intros gone. unfold TBReady.cleanup. cbv zeta.
  cbn [TBReady.beacons TBReady.beaconsReady TBReady.set_registry].
  destruct gone eqn:Hg; subst gone.
  - split; apply map_lookup_filter_None; right; intros x _; simpl; congruence.
  - split.
    + destruct (TBReady.beacons tb !! e) as [x|] eqn:Hl.
      * apply map_lookup_filter_Some. split; [done|]. simpl. by rewrite Hl.
      * apply map_lookup_filter_None. by left.
    + destruct (TBReady.beaconsReady tb !! e) as [x|] eqn:Hl.
      * apply map_lookup_filter_Some. split; [done|]. simpl. done.
      * apply map_lookup_filter_None. by left.
Qed.

Lemma Ready_Get_from_DB (tb : TBReady.TortoiseBeacon D) (e : EpochID) (val : Hash32) :
  TBReady.dbGet tb e = Some val -> TBReady.Get tb e = (tb, Ok val).
Proof. intros Hdb. unfold TBReady.Get. by rewrite Hdb. Qed.

End ReadyFacts.

(** X13. Get writes a beacon it finds in memory through to the beacon DB:
    over a DB that returns what it has accepted, once Get has returned the
    32-byte beacon of an epoch, every later Get of that epoch returns it
    from the DB without touching the state, whatever has happened to the
    in-memory registry, in particular after the cleanup task has run. *)
Theorem Get_writes_through
    (D : Type) (HD : tortoiseBeaconDB D) (tb : TBReady.TortoiseBeacon D)
    (e : EpochID) (db db' : D) (h : Hash32) :
  db_keeps_beacons D ->
  TBReady.tortoiseBeaconDB_ tb = Some db ->
  GetTortoiseBeacon db e = None ->
  TBReady.beacons tb !! e = Some h ->
  length h = HashLength ->
  SetTortoiseBeacon db e h = (db', None) ->
  let r := TBReady.Get tb e in
  r.2 = Ok h
  /\ TBReady.tortoiseBeaconDB_ r.1 = Some db'
  /\ (forall (b : gmap EpochID Hash32) (ready : gmap EpochID TBReady.chan),
        TBReady.Get (TBReady.set_registry b ready r.1) e
        = (TBReady.set_registry b ready r.1, Ok h))
  /\ (forall c : collaborators,
        TBReady.Get (TBReady.cleanup c r.1) e = (TBReady.cleanup c r.1, Ok h)).
Proof.
  intros Hkeep Hd Hget Hb Hlen Hset r. subst r.
  assert (Hr : TBReady.Get tb e = (TBReady.set_db (Some db') tb, Ok h)).
  { unfold TBReady.Get, TBReady.dbGet. by rewrite Hd, Hget, Hb, Hset. }
  rewrite Hr. simpl. split; [done|]. split; [done|].
  assert (Hreg : forall (b : gmap EpochID Hash32) (ready : gmap EpochID TBReady.chan),
             TBReady.Get (TBReady.set_registry b ready (TBReady.set_db (Some db') tb)) e
             = (TBReady.set_registry b ready (TBReady.set_db (Some db') tb), Ok h)).
  { intros b ready. apply Ready_Get_from_DB. unfold TBReady.dbGet. simpl.
    by apply (Hkeep db db'). }
  split; [|intros c; unfold TBReady.cleanup]; apply Hreg.
Qed.

Lemma Get_writes_through_witness :
  let r := TBReady.Get freshReadyDBNode 5 in
  r.2 = Ok s1_beacon
  /\ TBReady.Get (TBReady.cleanup mockCollaborators r.1) 5
     = (TBReady.cleanup mockCollaborators r.1, Ok s1_beacon)
  /\ TBReady.beacons (TBReady.cleanup mockCollaborators r.1) !! 5 = None.
Proof.
  pose proof (Get_writes_through memDB _ freshReadyDBNode 5 (DBFile.NewDB ∅)
                (DBFile.NewDB {[ EpochID_ToBytes 5 := s1_beacon ]}) s1_beacon
                memDB_keeps_beacons eq_refl eq_refl eq_refl eq_refl eq_refl)
    as (H1 & _ & _ & H4).
  split; [exact H1|]. split; [exact (H4 mockCollaborators)|]. reflexivity.
Defined.

(** X14. Get reports ErrBeaconNotCalculated exactly when neither the beacon
    DB nor the in-memory registry has the epoch; every other failure is the
    wrapped error of a refused DB write; Get changes nothing but the DB. *)
Theorem Get_not_calculated_iff
    (D : Type) (HD : tortoiseBeaconDB D) (tb : TBReady.TortoiseBeacon D) (e : EpochID) :
  let r := TBReady.Get tb e in
  (r.2 = Err ErrBeaconNotCalculated
   <-> TBReady.dbGet tb e = None /\ TBReady.beacons tb !! e = None)
  /\ (forall err, r.2 = Err err -> err <> ErrBeaconNotCalculated ->
        exists cause, err = ErrWrap "update beacon in DB" cause)
  /\ TBReady.beacons r.1 = TBReady.beacons tb
  /\ TBReady.beaconsReady r.1 = TBReady.beaconsReady tb
  /\ (forall h, r.2 = Ok h ->
        TBReady.dbGet tb e = Some h
        \/ (TBReady.dbGet tb e = None /\ TBReady.beacons tb !! e = Some h)).
Proof.
  intros r. subst r. unfold TBReady.Get.
  destruct (TBReady.dbGet tb e) as [val|] eqn:Hdb; simpl.
  { split; [split; [done|by intros [? _]]|]. split; [done|]. split; [done|].
    split; [done|]. intros h [= <-]. by left. }
  destruct (TBReady.beacons tb !! e) as [b|] eqn:Hb; simpl.
  2: { split; [done|]. split; [by intros err [= <-]|]. by repeat split. }
  destruct (TBReady.tortoiseBeaconDB_ tb) as [db|]; simpl.
  2: { split; [split; [done|by intros [_ ?]]|]. split; [done|]. split; [done|].
       split; [done|]. intros h [= <-]. by right. }
  destruct (SetTortoiseBeacon db e b) as [db' [cause|]]; simpl.
  - split; [split; [done|by intros [_ ?]]|]. split; [|by repeat split].
    intros err [= <-] _. by exists cause.
  - split; [split; [done|by intros [_ ?]]|]. split; [done|]. split; [done|].
    split; [done|]. intros h [= <-]. by right.
Qed.

Lemma Get_not_calculated_iff_witness :
  (TBReady.Get pendingNode 5).2 = Err ErrBeaconNotCalculated.
Proof.
  apply (proj1 (Get_not_calculated_iff memDB _ pendingNode 5)).
  split; reflexivity.
Defined.

(** X15. On a node that has started and has no beacon DB, after
    initGenesisBeacons Wait returns nil at once for every genesis epoch,
    since their readiness channel is the closed one, provided the timeout
    [4 * RoundsNumber * roundDuration] is positive; for an epoch after the
    first non-genesis one that had no readiness channel it returns
    ErrBeaconNotCalculated at once. *)
Theorem Wait_after_initGenesisBeacons
    (D : Type) (HD : tortoiseBeaconDB D) (c : collaborators) (n : Z) (fuel : nat)
    (tb : TBReady.TortoiseBeacon D) (f : TBReady.future) :
  0 <= n < 2 ^ 64 ->
  (forall e, 0 <= e < 2 ^ 64 -> IsGenesis c e = (e <? n)) ->
  n < Z.of_nat fuel ->
  TBReady.started tb || TBReady.closed tb = true ->
  TBReady.tortoiseBeaconDB_ tb = None ->
  0 < TBReady.beaconCalcTimeout tb ->
  exists tb',
    TBReady.initGenesisBeacons c fuel tb = Some tb'
    /\ (forall e, 0 <= e < n -> TBReady.Wait tb' e f = Some (None, 0))
    /\ (forall e, n < e -> TBReady.beaconsReady tb !! e = None ->
          TBReady.Wait tb' e f = Some (Some ErrBeaconNotCalculated, 0)).
Proof.
  intros Hn Hgen Hfuel Hs Hd Ht.
  destruct (initGenesisLoop_ready_segment c n fuel Hn Hgen 0
              (TBReady.beacons tb) (TBReady.beaconsReady tb))
    as (b' & r' & Hb' & Hin & Hout); [lia..|].
  unfold TBReady.initGenesisBeacons. rewrite Hb'. eexists. split; [done|].
  split.
  - intros e He. unfold TBReady.Wait, TBReady.dbGet. simpl. rewrite Hs, Hd. simpl.
    rewrite lookup_insert_ne by lia. destruct (Hin e) as [_ ->]; [lia|].
    unfold TBReady.beaconCalcTimeout in *. simpl.
    by rewrite (proj2 (Z.ltb_lt 0 _) Ht).
  - intros e He Hr. unfold TBReady.Wait, TBReady.dbGet. simpl. rewrite Hs, Hd. simpl.
    rewrite lookup_insert_ne by lia. destruct (Hout e) as [_ ->]; [lia|].
    by rewrite Hr.
Qed.

Lemma Wait_after_initGenesisBeacons_witness :
  exists tb',
    TBReady.initGenesisBeacons mockCollaborators 3 pendingNode = Some tb'
    /\ (forall e, 0 <= e < 2 ->
          TBReady.Wait tb' e (TBReady.Future None None) = Some (None, 0))
    /\ (forall e, 2 < e -> TBReady.beaconsReady pendingNode !! e = None ->
          TBReady.Wait tb' e (TBReady.Future None None)
          = Some (Some ErrBeaconNotCalculated, 0)).
Proof.
  assert (H2 : 0 <= 2 < 2 ^ 64) by (split; [discriminate|reflexivity]).
  assert (Hg : forall e, 0 <= e < 2 ^ 64 -> IsGenesis mockCollaborators e = (e <? 2))
    by reflexivity.
  assert (Hfuel : 2 < Z.of_nat 3) by reflexivity.
  assert (Ht : 0 < TBReady.beaconCalcTimeout pendingNode) by reflexivity.
  exact (Wait_after_initGenesisBeacons memDB _ mockCollaborators 2 3 pendingNode
           (TBReady.Future None None) H2 Hg Hfuel eq_refl eq_refl Ht).
Defined.

(** X16. The cleanup task of tortoisebeacon.go ranges over the beacons
    only: it removes the beacon and the readiness channel of an epoch that
    has a beacon and is outdated, and nothing else. The readiness channel
    of an epoch without a beacon is never removed, however old the epoch;
    and if every epoch with a beacon has a readiness channel before the
    run, the same holds after it. *)
Theorem Ready_cleanup_spares_pending_epochs
    (D : Type) (HD : tortoiseBeaconDB D) (c : collaborators)
    (tb : TBReady.TortoiseBeacon D) :
  let tb' := TBReady.cleanup c tb in
  (forall e, TBReady.beacons tb !! e = None ->
             TBReady.beaconsReady tb' !! e = TBReady.beaconsReady tb !! e)
  /\ (forall e, is_Some (TBReady.beacons tb !! e) ->
        if TBReady.epochIsOutdated c tb e
        then TBReady.beacons tb' !! e = None /\ TBReady.beaconsReady tb' !! e = None
        else TBReady.beacons tb' !! e = TBReady.beacons tb !! e
             /\ TBReady.beaconsReady tb' !! e = TBReady.beaconsReady tb !! e)
  /\ ((forall e, is_Some (TBReady.beacons tb !! e) -> is_Some (TBReady.beaconsReady tb !! e)) ->
      forall e, is_Some (TBReady.beacons tb' !! e) -> is_Some (TBReady.beaconsReady tb' !! e))
  /\ TBReady.lastLayer tb' = TBReady.lastLayer tb
  /\ TBReady.tortoiseBeaconDB_ tb' = TBReady.tortoiseBeaconDB_ tb.
Proof.
  intros tb'. subst tb'. split; [|split; [|split; [|done]]].
  - intros e Hb. destruct (Ready_cleanup_lookup c tb e) as [_ ->].
    rewrite Hb. by rewrite bool_decide_eq_false_2 by (by intros [? ?]).
  - intros e Hb. destruct (Ready_cleanup_lookup c tb e) as [-> ->].
    rewrite bool_decide_eq_true_2 by done. simpl.
    by destruct (TBReady.epochIsOutdated c tb e).
  - intros Hinv e. destruct (Ready_cleanup_lookup c tb e) as [-> ->].
    destruct (_ && _); [by intros [? ?]|apply Hinv].
Qed.

Lemma Ready_cleanup_spares_pending_epochs_witness :
  TBReady.beaconsReady (TBReady.cleanup mockCollaborators
                          (TBReadyEpoch.set_lastLayer 30000 pendingNode)) !! 5
  = Some TBReady.chanOpen.
Proof.
  exact (proj1 (Ready_cleanup_spares_pending_epochs memDB _ mockCollaborators
                  (TBReadyEpoch.set_lastLayer 30000 pendingNode)) 5 eq_refl).
Defined.

(** ** Layers and epochs of tortoisebeacon.go *)

Section ReadyEpochFacts.
Context {D : Type} `{!tortoiseBeaconDB D}.
Variable s : TBReadyEpoch.services.

Lemma Ready_runProposalPhase_outcome (tb : TBReadyEpoch.Engine D) (epoch : EpochID) :
  let atxList := TBReadyEpoch.epochATXGetter_GetEpochAtxs s (epoch_sub epoch 1) in
  (exists err, TBReadyEpoch.runProposalPhase s tb epoch = (tb, Some err)
               /\ (err = ErrEmptyProposalList <-> atxList = []))
  \/ (exists payload tb1,
        atxList <> []
        /\ TBReadyEpoch.types_InterfaceToBytes s (TBReadyEpoch.NewProposalMessage epoch atxList)
           = Ok payload
        /\ TBReadyEpoch.net_Broadcast s TBProposalProtocol payload = None
        /\ TBReadyEpoch.runProposalPhase s tb epoch = (tb1, None)
        /\ TBReadyEpoch.sent tb1 = TBReadyEpoch.sent tb ++ [(TBProposalProtocol, payload)]
        /\ TBReadyEpoch.timelyProposals tb1
           = <[ epoch := {[ TBReadyEpoch.ATXIDList_Hash s atxList ]}
                         ∪ default ∅ (TBReadyEpoch.timelyProposals tb !! epoch) ]>
               (TBReadyEpoch.timelyProposals tb)
        /\ TBReady.lastLayer (TBReadyEpoch.core tb1) = TBReady.lastLayer (TBReadyEpoch.core tb)
        /\ TBReady.beacons (TBReadyEpoch.core tb1) = TBReady.beacons (TBReadyEpoch.core tb)
        /\ TBReady.beaconsReady (TBReadyEpoch.core tb1)
           = TBReady.beaconsReady (TBReadyEpoch.core tb)).
Proof.
  cbv zeta. unfold TBReadyEpoch.runProposalPhase.
  destruct (TBReadyEpoch.epochATXGetter_GetEpochAtxs s (epoch_sub epoch 1)) as [|a l]; simpl.
  { left. by exists ErrEmptyProposalList. }
  destruct (TBReadyEpoch.types_InterfaceToBytes s _) as [payload|err] eqn:Hser.
  2: { left. eexists. split; [done|]. by split. }
  destruct (TBReadyEpoch.net_Broadcast s TBProposalProtocol payload) as [err|] eqn:Hnet.
  { left. eexists. split; [done|]. by split. }
  right. exists payload.
  destruct (TBReadyEpoch.weakCoin_PublishProposal s epoch 1); eexists; by repeat split.
Qed.

End ReadyEpochFacts.

(** X17. The proposal phase of tortoisebeacon.go fails with
    ErrEmptyProposalList exactly when the previous epoch has no ATX, and it
    fails only with the state it was given. When it succeeds, the ATX list
    of the previous epoch went out once, on TBProposal, in a message
    labelled with the current epoch, and the hash of that list is among the
    timely proposals of the epoch; a weak coin that cannot publish does not
    make it fail. *)
Theorem Ready_runProposalPhase_sends_previous_epoch_ATXs
    (D : Type) (HD : tortoiseBeaconDB D) (s : TBReadyEpoch.services)
    (tb : TBReadyEpoch.Engine D) (epoch : EpochID) :
  let atxList := TBReadyEpoch.epochATXGetter_GetEpochAtxs s (epoch_sub epoch 1) in
  let r := TBReadyEpoch.runProposalPhase s tb epoch in
  (r.2 = Some ErrEmptyProposalList <-> atxList = [])
  /\ (forall err, r.2 = Some err -> r.1 = tb)
  /\ (r.2 = None ->
      exists payload,
        TBReadyEpoch.types_InterfaceToBytes s (TBReadyEpoch.NewProposalMessage epoch atxList)
        = Ok payload
        /\ TBReadyEpoch.sent r.1 = TBReadyEpoch.sent tb ++ [(TBProposalProtocol, payload)]
        /\ TBReadyEpoch.ATXIDList_Hash s atxList
           ∈ default ∅ (TBReadyEpoch.timelyProposals r.1 !! epoch))
  /\ (atxList <> [] ->
      (exists payload,
         TBReadyEpoch.types_InterfaceToBytes s (TBReadyEpoch.NewProposalMessage epoch atxList)
         = Ok payload
         /\ TBReadyEpoch.net_Broadcast s TBProposalProtocol payload = None) ->
      r.2 = None).
Proof.
  intros atxList r. subst r atxList.
  destruct (Ready_runProposalPhase_outcome s tb epoch)
    as [(err & Hr & Hiff)|(payload & tb1 & Hne & Hser & Hnet & Hr & Hsent & Htp & _)];
    rewrite Hr; simpl.
  - split; [|split; [done|split; [done|]]].
    + rewrite <- Hiff. split; [by intros [= <-]|by intros ->].
    + intros Hne (payload & Hser & Hnet). revert Hr Hne Hser.
      unfold TBReadyEpoch.runProposalPhase.
      destruct (TBReadyEpoch.epochATXGetter_GetEpochAtxs s (epoch_sub epoch 1)); [done|].
      simpl. intros Hr _ Hser. rewrite Hser, Hnet in Hr.
      by destruct (TBReadyEpoch.weakCoin_PublishProposal s epoch 1).
  - split; [split; [done|by intros ?]|]. split; [done|]. split; [|done].
    intros _. exists payload. split; [done|]. split; [done|].
    rewrite Htp, lookup_insert_eq. simpl. set_solver.
Qed.

Lemma Ready_runProposalPhase_sends_previous_epoch_ATXs_witness :
  (TBReadyEpoch.runProposalPhase noATXServices freshEngine 5).2 = Some ErrEmptyProposalList.
Proof.
  apply (proj1 (Ready_runProposalPhase_sends_previous_epoch_ATXs memDB _ noATXServices
                  freshEngine 5)).
  reflexivity.
Defined.

(** X18. An epoch that starts on a node without ATXs of the previous epoch
    is left pending: handleEpoch marks the node started and registers an
    open readiness channel for the epoch, the proposal phase fails, and
    handleEpoch returns after logging it, without a consensus phase and
    without a beacon; nothing is sent. Wait for that epoch then ends with
    ErrTimeout unless the node is closed or somebody else closes the
    channel within the timeout. *)
Theorem Ready_handleEpoch_without_ATXs
    (D : Type) (HD : tortoiseBeaconDB D) (c : collaborators) (s : TBReadyEpoch.services)
    (ph : TBReadyEpoch.phases D) (tb : TBReadyEpoch.Engine D) (epoch : EpochID)
    (f : TBReady.future) :
  IsGenesis c epoch = false ->
  TBReadyEpoch.epochATXGetter_GetEpochAtxs s (epoch_sub epoch 1) = [] ->
  TBReady.beaconsReady (TBReadyEpoch.core tb) !! epoch = None ->
  let tb' := TBReadyEpoch.handleEpoch c s ph tb epoch in
  TBReady.started (TBReadyEpoch.core tb') = true
  /\ TBReady.beaconsReady (TBReadyEpoch.core tb') !! epoch = Some TBReady.chanOpen
  /\ TBReady.beacons (TBReadyEpoch.core tb') = TBReady.beacons (TBReadyEpoch.core tb)
  /\ TBReadyEpoch.sent tb' = TBReadyEpoch.sent tb
  /\ TBReadyEpoch.timelyProposals tb' = TBReadyEpoch.timelyProposals tb
  /\ TBReady.Log (TBReadyEpoch.core tb')
     = TBReady.Log (TBReadyEpoch.core tb) ++ ["Failed to send proposal"%string]
  /\ (TBReady.closed (TBReadyEpoch.core tb) = false ->
      TBReady.dbGet (TBReadyEpoch.core tb) epoch = None ->
      TBReady.fires_within (TBReady.readyAt f)
        (TBReady.beaconCalcTimeout (TBReadyEpoch.core tb)) = false ->
      TBReady.fires_within (TBReady.closeAt f)
        (TBReady.beaconCalcTimeout (TBReadyEpoch.core tb)) = false ->
      TBReady.Wait (TBReadyEpoch.core tb') epoch f
      = Some (Some ErrTimeout, TBReady.beaconCalcTimeout (TBReadyEpoch.core tb))).
Proof.
  intros Hg Hatx Hr tb'. subst tb'.
  unfold TBReadyEpoch.handleEpoch, TBReadyEpoch.runProposalPhase.
  rewrite Hg, Hatx, Hr. simpl.
  split; [done|]. split; [apply lookup_insert_eq|]. do 4 (split; [done|]).
  intros Hc Hdb Hf1 Hf2.
  unfold TBReady.Wait, TBReady.dbGet in *. simpl.
  rewrite Hc. simpl. rewrite Hdb, lookup_insert_eq.
  unfold TBReady.beaconCalcTimeout in *. simpl. by rewrite Hf1, Hf2.
Qed.

Lemma Ready_handleEpoch_without_ATXs_witness :
  let tb' := TBReadyEpoch.handleEpoch mockCollaborators noATXServices idlePhases
               freshEngine 5 in
  TBReady.started (TBReadyEpoch.core tb') = true
  /\ TBReady.beaconsReady (TBReadyEpoch.core tb') !! 5 = Some TBReady.chanOpen
  /\ TBReady.Wait (TBReadyEpoch.core tb') 5 (TBReady.Future None None)
     = Some (Some ErrTimeout, TBReady.beaconCalcTimeout freshReadyNode).
Proof.
  pose proof (Ready_handleEpoch_without_ATXs memDB _ mockCollaborators noATXServices
                idlePhases freshEngine 5 (TBReady.Future None None)
                eq_refl eq_refl eq_refl) as (H1 & H2 & _ & _ & _ & _ & H7).
  split; [exact H1|]. split; [exact H2|].
  exact (H7 eq_refl eq_refl eq_refl eq_refl).
Defined.

(** X19. handleLayer leaves the last layer at the larger of the last layer
    seen so far and the layer handled, also when the layer starts an epoch,
    as long as the consensus phase and the beacon calculation leave the
    last layer alone: the last layer never decreases. A layer that is not
    the first of its epoch changes nothing else. *)
Theorem handleLayer_lastLayer_is_max
    (D : Type) (HD : tortoiseBeaconDB D) (c : collaborators) (s : TBReadyEpoch.services)
    (ph : TBReadyEpoch.phases D) (tb : TBReadyEpoch.Engine D) (layer : Z) :
  (forall t e, TBReady.lastLayer (TBReadyEpoch.core (TBReadyEpoch.runConsensusPhase ph t e).1)
               = TBReady.lastLayer (TBReadyEpoch.core t)) ->
  (forall t e, TBReady.lastLayer (TBReadyEpoch.core (TBReadyEpoch.calcBeacon ph t e))
               = TBReady.lastLayer (TBReadyEpoch.core t)) ->
  let tb' := TBReadyEpoch.handleLayer c s ph tb layer in
  TBReady.lastLayer (TBReadyEpoch.core tb')
  = Z.max (TBReady.lastLayer (TBReadyEpoch.core tb)) layer
  /\ TBReady.lastLayer (TBReadyEpoch.core tb) <= TBReady.lastLayer (TBReadyEpoch.core tb')
  /\ (TBReadyEpoch.LayerID_FirstInEpoch s layer = false ->
      TBReady.beacons (TBReadyEpoch.core tb') = TBReady.beacons (TBReadyEpoch.core tb)
      /\ TBReady.beaconsReady (TBReadyEpoch.core tb')
         = TBReady.beaconsReady (TBReadyEpoch.core tb)
      /\ TBReady.started (TBReadyEpoch.core tb') = TBReady.started (TBReadyEpoch.core tb)
      /\ TBReady.Log (TBReadyEpoch.core tb') = TBReady.Log (TBReadyEpoch.core tb)
      /\ TBReadyEpoch.sent tb' = TBReadyEpoch.sent tb
      /\ TBReadyEpoch.timelyProposals tb' = TBReadyEpoch.timelyProposals tb).
Proof.
  intros Hcons Hcalc tb'. subst tb'.
  set (tb0 := if TBReady.lastLayer (TBReadyEpoch.core tb) <? layer
              then TBReadyEpoch.on_core (TBReadyEpoch.set_lastLayer layer) tb else tb).
  assert (H0 : TBReady.lastLayer (TBReadyEpoch.core tb0)
               = Z.max (TBReady.lastLayer (TBReadyEpoch.core tb)) layer).
  { subst tb0. destruct (Z.ltb_spec (TBReady.lastLayer (TBReadyEpoch.core tb)) layer);
      simpl; lia. }
  assert (Hepoch : forall e,
             TBReady.lastLayer (TBReadyEpoch.core (TBReadyEpoch.handleEpoch c s ph tb0 e))
             = TBReady.lastLayer (TBReadyEpoch.core tb0)).
  { intros e. unfold TBReadyEpoch.handleEpoch.
    destruct (IsGenesis c e); [done|].
    match goal with
    | |- context [TBReadyEpoch.runProposalPhase s ?t e] =>
        destruct (Ready_runProposalPhase_outcome s t e)
          as [(err & -> & _)|(payload & tb1 & _ & _ & _ & -> & _ & _ & Hl & _)]
    end; [done|].
    rewrite Hcalc.
    pose proof (Hcons tb1 e) as Hc1.
    destruct (TBReadyEpoch.runConsensusPhase ph tb1 e) as [tb2 [err|]]; simpl in *;
      rewrite Hc1, Hl; done. }
  assert (Hl : TBReady.lastLayer (TBReadyEpoch.core (TBReadyEpoch.handleLayer c s ph tb layer))
               = Z.max (TBReady.lastLayer (TBReadyEpoch.core tb)) layer).
  { unfold TBReadyEpoch.handleLayer. fold tb0.
    destruct (TBReadyEpoch.LayerID_FirstInEpoch s layer); simpl; [|done].
    by rewrite Hepoch. }
  split; [done|]. split; [lia|].
  intros Hfirst. unfold TBReadyEpoch.handleLayer. fold tb0. rewrite Hfirst. simpl.
  subst tb0. by destruct (_ <? _).
Qed.

Lemma handleLayer_lastLayer_is_max_witness :
  TBReady.lastLayer
    (TBReadyEpoch.core
       (TBReadyEpoch.handleLayer mockCollaborators noATXServices idlePhases freshEngine 15))
  = Z.max 0 15.
Proof.
  exact (proj1 (handleLayer_lastLayer_is_max memDB _ mockCollaborators noATXServices
                  idlePhases freshEngine 15 (fun _ _ => eq_refl) (fun _ _ => eq_refl))).
Defined.

(** ** The mock beacon (tortoisebeacon.go) *)

Lemma be_bytes_length (n : nat) : forall x : Z, length (SHA256.be_bytes n x) = n.
Proof.
  induction n as [|n IH]; intros x; [done|].
  cbn [SHA256.be_bytes]. rewrite length_app, IH. simpl. lia.
Qed.

(** X20. The value GetBeacon of tortoisebeacon.go returns depends on the
    epoch number alone: it is 32 bytes long, its first eight bytes are the
    epoch in little-endian order, the other 24 are zero, and two epochs get
    the same value exactly when they are equal modulo 2^64; the state of the
    node only gains a log line. *)
Theorem mockBeacon_encodes_the_epoch (D : Type) (tb : TBReady.TortoiseBeacon D)
    (e1 e2 : EpochID) :
  length (TBReady.GetBeacon tb e1).2 = HashLength
  /\ SHA256.be_word (rev (take 8 (TBReady.GetBeacon tb e1).2)) = wrap64 e1
  /\ drop 8 (TBReady.GetBeacon tb e1).2 = repeat 0 24
  /\ ((TBReady.GetBeacon tb e1).2 = (TBReady.GetBeacon tb e2).2 <-> wrap64 e1 = wrap64 e2)
  /\ TBReady.beacons (TBReady.GetBeacon tb e1).1 = TBReady.beacons tb
  /\ TBReady.beaconsReady (TBReady.GetBeacon tb e1).1 = TBReady.beaconsReady tb.
Proof.
  assert (Hlen : forall e, length (rev (SHA256.be_bytes 8 (wrap64 e))) = 8%nat).
  { intros e. by rewrite length_rev, be_bytes_length. }
  assert (Hword : forall e, SHA256.be_word (SHA256.be_bytes 8 (wrap64 e)) = wrap64 e).
  { intros e. rewrite be_word_be_bytes. change (256 ^ Z.of_nat 8) with (2 ^ 64).
    unfold wrap64, uint64_modulus. apply Z.mod_mod. lia. }
  change ((TBReady.GetBeacon tb e1).2) with (TBReady.mockBeacon e1).
  change ((TBReady.GetBeacon tb e2).2) with (TBReady.mockBeacon e2).
  unfold TBReady.mockBeacon.
  split; [by rewrite length_app, Hlen, repeat_length|].
  split; [by rewrite take_app_length', rev_involutive|].
  split; [by rewrite drop_app_length'|].
  split; [|done]. split.
  - intros Heq. apply app_inv_tail in Heq.
    apply (f_equal (@rev Z)) in Heq. rewrite !rev_involutive in Heq.
    apply (f_equal SHA256.be_word) in Heq. by rewrite !Hword in Heq.
  - by intros ->.
Qed.
